(** * labutils: growth kinetics from plate-reader and dry-weight tables

    A shallow embedding of [labutils/biomass.py] and [labutils/models.py].

    Conventions of the embedding:
    - a Python/NumPy float is a real number ([R]); where the source has no
      real value (a division by zero, a deviation over fewer than two
      samples) the embedding says so explicitly ([None], [NaN], an
      exception);
    - a Polars [Datetime] is an integer count of microseconds since the
      epoch and a [Duration] an integer count of microseconds ([Z]);
    - an exception is the left injection of [result];
    - the spreadsheet reader, the file system and the lmfit optimiser are
      collaborators outside the package: workbooks are data handed to the
      functions, the optimiser and the answers of the file system to the
      writes are section variables. *)

From Stdlib Require Import List String ZArith Reals Lra Lia Bool.
From Stdlib Require Import Permutation Sorted.
Import ListNotations.

(* ================================================================== *)
(** * Exceptions and the error monad                                   *)
(* ================================================================== *)

(** The exceptions the embedded code can raise. *)
Inductive exn : Type :=
| ValueError                            (* pl.concat of no frame *)
| IndexError                            (* l[i] past the end of a list *)
| FileNotFoundError (path : string)     (* the reader found no such workbook *)
| ColumnNotFoundError (name : string)   (* df[name] on a frame without that column *)
| InvalidOperationError                 (* str.to_datetime: the text does not match the pattern *)
| FileCreateError (path : string)       (* workbook.close(): the file cannot be created *)
| FitError (msg : string).              (* anything lmfit raises from Model.fit *)

Definition result (A : Type) : Type := (exn + A)%type.

Definition ret {A : Type} (a : A) : result A := inr a.
Definition raise {A : Type} (e : exn) : result A := inl e.
Definition bind {A B : Type} (m : result A) (k : A -> result B) : result B :=
  match m with
  | inl e => inl e
  | inr a => k a
  end.

Declare Scope result_scope.
Delimit Scope result_scope with result.
Notation "x <- m ;; k" := (bind m (fun x => k))
  (at level 61, m at next level, right associativity) : result_scope.

(** [for x in xs: body] where the body may raise: the first exception
    leaves the loop. *)
Fixpoint for_each {A S : Type} (xs : list A) (body : S -> A -> result S) (s : S)
  : result S :=
  match xs with
  | [] => ret s
  | x :: xs' => bind (body s x) (for_each xs' body)
  end.

(** A Python dict: insertion ordered, one entry per key; assigning to a
    key that is present keeps its position. *)
Definition dict (V : Type) : Type := list (string * V).

Fixpoint dict_set {V : Type} (k : string) (v : V) (d : dict V) : dict V :=
  match d with
  | [] => [(k, v)]
  | (k', v') :: d' =>
      if String.eqb k' k then (k, v) :: d' else (k', v') :: dict_set k v d'
  end.

Fixpoint dict_get {V : Type} (k : string) (d : dict V) : option V :=
  match d with
  | [] => None
  | (k', v) :: d' => if String.eqb k' k then Some v else dict_get k d'
  end.

Definition values {V : Type} (d : dict V) : list V := map snd d.
Definition keys {V : Type} (d : dict V) : list string := map fst d.

(** [l[i]] on a Python list. *)
Definition index {A : Type} (l : list A) (i : nat) : result A :=
  match nth_error l i with
  | Some a => ret a
  | None => raise IndexError
  end.

(** [x if x is not None else d] *)
Definition default {A : Type} (x : option A) (d : A) : A :=
  match x with
  | Some a => a
  | None => d
  end.

(* ================================================================== *)
(** * The fragment of Polars the package uses                          *)
(* ================================================================== *)

(** A frame is the list of its rows, in frame order; the rows of one frame
    share a record type, which is the frame's schema. *)
Module pl.

(** [pl.concat(frames)]: the rows of the frames one after the other; no
    frame at all is a [ValueError].  The frames of one call share their
    row type here; that Polars also refuses frames whose inferred column
    types differ is outside this embedding. *)
Definition concat {Row : Type} (frames : list (list Row)) : result (list Row) :=
  match frames with
  | [] => raise ValueError
  | _ :: _ => ret (List.concat frames)
  end.

(** [df.sort(col)], ascending, on an integer valued column (a Datetime
    or a Duration).  Insertion sort, stable. *)
Fixpoint insert {Row : Type} (key : Row -> Z) (r : Row) (df : list Row) : list Row :=
  match df with
  | [] => [r]
  | r' :: df' =>
      if (key r <=? key r')%Z then r :: df else r' :: insert key r df'
  end.

Definition sort {Row : Type} (key : Row -> Z) (df : list Row) : list Row :=
  fold_right (insert key) [] df.

(** [df[0, j]]: the cell of column [j] in the first row.  On a frame
    without rows Polars does not raise: the selection is empty ([None]). *)
Definition item0 {Row T : Type} (col : Row -> T) (df : list Row) : option T :=
  match df with
  | [] => None
  | r :: _ => Some (col r)
  end.

(** [df.with_columns(time = ...)]: the frame with one more column. *)
Record timed (Row T : Type) : Type := with_time { row : Row; time : T }.
Arguments with_time {Row T} row time.
Arguments row {Row T} _.
Arguments time {Row T} _.

(** [df.with_columns(time = pl.col(c) - x)] for a selection [x]: every
    row gets its difference to the selected cell; with the empty
    selection, which only a frame without rows gives, the frame stays
    without rows. *)
Definition minus_item {Row : Type} (col : Row -> Z) (x : option Z) (df : list Row)
  : list (timed Row Z) :=
  match x with
  | Some x0 => map (fun r => with_time r (col r - x0)%Z) df
  | None => []
  end.

(** [left.join(right, on=k)], Polars' default [how="inner"]: one row per
    pair of a left row and a right row with equal keys. *)
Definition join {L R' Out : Type} (lkey : L -> string) (rkey : R' -> string)
    (combine : L -> R' -> Out) (left : list L) (right : list R') : list Out :=
  flat_map
    (fun l => map (combine l) (filter (fun r => String.eqb (rkey r) (lkey l)) right))
    left.

(** [df.group_by(k)]: one group per distinct key; a group holds the rows
    of that key in frame order.  (Polars leaves the order of the groups
    open; every use in the package sorts them afterwards.) *)
Definition group_by {Row : Type} (key : Row -> Z) (df : list Row)
  : list (Z * list Row) :=
  map (fun k => (k, filter (fun r => (key r =? k)%Z) df))
      (nodup Z.eq_dec (map key df)).

(** A Float64 cell that may hold no number. *)
Inductive float : Type :=
| Num (r : R)
| NaN.

Definition sum (xs : list R) : R := fold_right Rplus 0%R xs.

(** [pl.mean(col)] over the rows of a (non-empty) group. *)
Definition mean (xs : list R) : R := (sum xs / INR (List.length xs))%R.

(** Modelled from the spec: [pl.std] is Polars' code, not the package's.
    It is the sample standard deviation (Polars' default [ddof=1]):
    the root of the summed squared deviations over [n - 1]; the spec's
    data model says of a single replicate that "std_dev [is] undefined
    (NaN) when only one replicate exists at that timestamp". *)
Definition std (xs : list R) : float :=
  match xs with
  | [] | [_] => NaN
  | _ :: _ :: _ =>
      let m := mean xs in
      Num (sqrt (sum (map (fun x => (x - m) * (x - m)) xs)
                 / (INR (List.length xs) - 1)))%R
  end.

(** [duration.dt.total_seconds()]: whole seconds, rounded towards zero. *)
Definition total_seconds (us : Z) : Z := Z.quot us 1000000.

End pl.

(** [[f(x) for x in xs]] where [f] may raise. *)
Fixpoint traverse {A B : Type} (f : A -> result B) (xs : list A) : result (list B) :=
  match xs with
  | [] => ret []
  | x :: xs' =>
      bind (f x) (fun y => bind (traverse f xs') (fun ys => ret (y :: ys)))
  end.

(* ================================================================== *)
(** * labutils/biomass.py                                              *)
(* ================================================================== *)

Module biomass.
Import pl.
Local Open Scope string_scope.
Local Open Scope Z_scope.
Local Open Scope result_scope.

(** ** What the spreadsheet reader hands over *)

(** The [read_options] dictionaries of [pl.read_excel]. *)
Inductive opt_value : Type :=
| OInt (n : Z)
| OStr (s : string).

Definition read_options : Type := dict opt_value.

(** A row of the absorbance block of a plate-reader sheet: the first
    column (headed "Wavel.", renamed to "well") and the readings. *)
Record reading : Type := { well : string; absorbance : list R }.

(** A row of the key block: the well and the sample identity columns. *)
Record key_row : Type := { key_well : string; sample : list string }.

(** One sheet of a plate-reader workbook, seen through the three reads
    [load_tecan] makes of it.  [read_date] is cell B of the row after
    the skipped ones as [str.to_datetime("%m/%d/%Y %I:%M:%S %p")] reads
    it: whole seconds since the epoch, [None] when the text does not
    match the pattern. *)
Record tecan_sheet : Type := {
  read_absorbance : read_options -> list reading;
  read_keys : read_options -> list key_row;
  read_date : read_options -> option Z
}.

(** A row of the frame [load_tecan] builds, before [time] is added; the
    columns in frame order: well, the readings, the key columns of the
    join (none without a join), and [date], which [with_columns] adds
    last. *)
Record tecan_row : Type := {
  t_well : string;
  t_absorbance : list R;
  t_sample : list string;
  date : Z
}.

(** A row of the dry-weight table, columns "type", "Biomass (g/L)" and
    "date". *)
Record dw_sample : Type := { type : string; Biomass : R; dw_date : Z }.

(** A row of the aggregated dry-weight frame; [group_by("date").agg(...)]
    puts the key first: "date", "Biomass (g/L)" (the mean), "std". *)
Record dw_summary : Type := { s_date : Z; s_Biomass : R; std : float }.

(** ** load_excel *)

Section LoadExcel.

Context {Row : Type}.

(** [pl.read_excel(file, sheet_id=0, columns=columns)]: every sheet of
    the workbook, by sheet name; it raises when there is no such file or
    a column is missing. *)
Variable read_excel : string -> option (list string) -> result (dict (list Row)).

Definition load_excel (file : string) (columns : option (list string))
  : result (list Row) :=
  df_dict <- read_excel file columns ;;
  pl.concat (values df_dict).

End LoadExcel.

(** ** load_tecan *)

Section LoadTecan.

(** [pl.read_excel(f, sheet_id=0, read_options=...)]: the sheets of the
    workbook [f]; the three reads of one file see the same sheets. *)
Variable open_workbook : string -> result (dict tecan_sheet).

(** [if keys_options:] is false for [None] and for the empty dict. *)
Definition requested (keys_options : option read_options) : bool :=
  match keys_options with
  | Some (_ :: _) => true
  | _ => false
  end.

(** The three passes over the sheets of one file, for one sheet. *)
Definition load_sheet (n_wells : Z) (col_letters : string)
    (keys_options : option read_options) (sh : tecan_sheet)
  : result (list tecan_row) :=
  (* read Absorbance values *)
  let start_row := 31 in
  let read_options :=
    [("header_row", OInt start_row); ("n_rows", OInt n_wells);
     ("use_columns", OStr col_letters)] in
  let df := read_absorbance sh read_options in
  (* Add well to sample key if available *)
  let df :=
    if requested keys_options
    then pl.join well key_well (fun r k => (r, sample k))
           df (read_keys sh (default keys_options []))
    else map (fun r => (r, [])) df in
  (* Get the date for each measurment *)
  let start_row := 27 in
  let read_options :=
    [("skip_rows", OInt start_row); ("n_rows", OInt 1);
     ("use_columns", OStr "B")] in
  match read_date sh read_options with
  | None => raise InvalidOperationError
  | Some seconds =>
      (* Add date to absorbance values *)
      ret (map (fun rk =>
                  {| t_well := well (fst rk);
                     t_absorbance := absorbance (fst rk);
                     t_sample := snd rk;
                     date := seconds * 1000000 |}) df)
  end.

Definition load_file (n_wells : Z) (col_letters : string)
    (keys_options : option read_options) (f : string)
  : result (list tecan_row) :=
  sheets <- open_workbook f ;;
  df_dict <- traverse (load_sheet n_wells col_letters keys_options) (values sheets) ;;
  pl.concat df_dict.

Definition load_tecan (files : list string) (n_wells : option Z)
    (col_letters : option string) (keys_options : option read_options)
  : result (list (timed tecan_row R)) :=
  let n_wells := default n_wells 4 in
  let col_letters := default col_letters "A:AE" in
  files_dict <-
    for_each files
      (fun files_dict f =>
         df <- load_file n_wells col_letters keys_options f ;;
         ret (dict_set f df files_dict))
      [] ;;
  od_df <- pl.concat (values files_dict) ;;
  let od_df := pl.sort date od_df in
  (* od_df[0, -1]: [date] is the last column *)
  let od_df := pl.minus_item date (pl.item0 date od_df) od_df in
  ret (map (fun r =>
              with_time (row r)
                (IZR (pl.total_seconds (time r)) / (3600 * 24))%R)
           od_df).

End LoadTecan.

(** ** get_dw_df *)

Section GetDwDf.

Variable read_excel : string -> option (list string) -> result (dict (list dw_sample)).

Definition get_dw_df (file : string) : result (list (timed dw_summary Z)) :=
  let columns := ["type"; "Biomass (g/L)"; "date"] in
  dw_df <- load_excel read_excel file (Some columns) ;;
  (* Keep only volatile suspended solids *)
  let dw_df := filter (fun r => String.eqb (type r) "VSS") dw_df in
  (* get mean and std of concentration; sort by date (oldest to newest) *)
  let dw_df :=
    pl.sort s_date
      (map (fun g =>
              {| s_date := fst g;
                 s_Biomass := pl.mean (map Biomass (snd g));
                 std := pl.std (map Biomass (snd g)) |})
           (pl.group_by dw_date dw_df)) in
  (* dw_df[0, 0]: [date], the group key, is the first column *)
  ret (pl.minus_item s_date (pl.item0 s_date dw_df) dw_df).

End GetDwDf.

End biomass.

(* ================================================================== *)
(** * labutils/models.py                                               *)
(* ================================================================== *)

Module models.
Local Open Scope string_scope.
Local Open Scope R_scope.

(** ** gompertz *)

(** [np.e] *)
Definition np_e : R := exp 1.

(** [x / y]: no real value when [y] is zero (Python raises
    [ZeroDivisionError], NumPy yields inf or nan). *)
Definition div (x y : R) : option R :=
  if Req_dec_T y 0 then None else Some (x / y).

(** [A * np.exp(-np.exp((B * np.e / A) * (C - t) + 1))] *)
Definition gompertz (t A B C : R) : option R :=
  match div (B * np_e) A with
  | Some k => Some (A * exp (- exp (k * (C - t) + 1)))
  | None => None
  end.

(** The growth model as the design document writes it:
    value(t; A, B, C) = A · exp( −exp( (B·e / A)·(C − t) + 1 ) ). *)
Definition GrowthModel_value (t A B C : R) : R :=
  A * exp (- exp ((B * exp 1 / A) * (C - t) + 1)).

(** ** What lmfit provides *)

Inductive bound : Type :=
| NegInf
| Finite (r : R)
| PosInf.

(** [lmfit.Parameter]: a value and its box. *)
Record Param : Type := { value : R; min : bound; max : bound }.

(** [Model(gompertz).make_params(A=A, B=B, C=C)]: the three parameters of
    the model function, each unbounded ([min=-inf], [max=inf]). *)
Record Parameters : Type := { par_A : Param; par_B : Param; par_C : Param }.

Definition make_params (A B C : R) : Parameters :=
  {| par_A := {| value := A; min := NegInf; max := PosInf |};
     par_B := {| value := B; min := NegInf; max := PosInf |};
     par_C := {| value := C; min := NegInf; max := PosInf |} |}.

(** [params[name].min = x] *)
Definition set_min (p : Param) (x : R) : Param :=
  {| value := value p; min := Finite x; max := max p |}.

(** [lmfit.model.ModelResult], as far as the package reads it: the fitted
    values of A, B and C, [best_fit], [fit_report()] and
    [eval_uncertainty(sigma=..., t=...)]. *)
Record ModelResult : Type := {
  best_A : R;
  best_B : R;
  best_C : R;
  best_fit : list R;
  fit_report : string;
  eval_uncertainty : R -> list R -> list R
}.

(** [Model(f).fit(y, params, t=t)] *)
Definition optimiser : Type :=
  (R -> R -> R -> R -> option R) -> list R -> Parameters -> list R -> result ModelResult.

(** [v >= b] for a lower bound [b]. *)
Definition above (b : bound) (v : R) : Prop :=
  match b with
  | NegInf => True
  | Finite l => l <= v
  | PosInf => False
  end.

(** lmfit's contract for bounded parameters, lower side: a fit that
    returns leaves every parameter at or above its [min]. *)
Definition keeps_lower_bounds (fit : optimiser) : Prop :=
  forall f y params t r,
    fit f y params t = inr r ->
    above (min (par_A params)) (best_A r) /\
    above (min (par_B params)) (best_B r) /\
    above (min (par_C params)) (best_C r).

(** ** What the package writes *)

(** [pl.DataFrame({"time": ..., "best_fit": ..., "uncertainty": ...})] *)
Record bf_table : Type := {
  bf_time : list R;
  bf_best_fit : list R;
  bf_uncertainty : list R
}.

Inductive event : Type :=
| OpenWorkbook (path : string)                       (* xlsxwriter.Workbook(path) *)
| WriteText (path : string) (text : string)          (* Path(path).open("w"), file.write(text) *)
| WriteSheet (workbook sheet : string) (table : bf_table)  (* bf_df.write_excel(workbook, sheet) *)
| CloseWorkbook (path : string).                     (* workbook.close() *)

(** A computation that may raise and that appends to the trace of what
    was written. *)
Definition io (A : Type) : Type := list event -> result A * list event.

(** The file system and the workbook writer, as far as the package sees
    them: the answer to a write, given what was written so far: [None]
    when the write is done, the exception it raises otherwise. *)
Definition file_system : Type := list event -> event -> option exn.

Definition io_ret {A : Type} (a : A) : io A := fun w => (inr a, w).

Definition io_bind {A B : Type} (m : io A) (k : A -> io B) : io B :=
  fun w =>
    match m w with
    | (inl e, w') => (inl e, w')
    | (inr a, w') => k a w'
    end.

Definition lift {A : Type} (m : result A) : io A := fun w => (m, w).

(** A write: done and recorded, or refused with an exception. *)
Definition emit (fs : file_system) (e : event) : io unit :=
  fun w =>
    match fs w e with
    | None => (inr tt, w ++ [e])%list
    | Some x => (inl x, w)
    end.

Declare Scope io_scope.
Delimit Scope io_scope with io.
Notation "x <- m ;; k" := (io_bind m (fun x => k))
  (at level 61, m at next level, right associativity) : io_scope.
Notation "m ;; k" := (io_bind m (fun _ => k))
  (at level 61, right associativity) : io_scope.

Fixpoint io_for_each {A : Type} (xs : list A) (body : A -> io unit) : io unit :=
  match xs with
  | [] => io_ret tt
  | x :: xs' => io_bind (body x) (fun _ => io_for_each xs' body)
  end.

(** [biomass_df[name].to_numpy()] on a frame of float columns. *)
Definition column (df : dict (list R)) (name : string) : result (list R) :=
  match dict_get name df with
  | Some c => ret c
  | None => raise (ColumnNotFoundError name)
  end.

(** [if out_dir:] is false for [None] and for the empty string. *)
Definition given (out_dir : option string) : bool :=
  match out_dir with
  | Some (String _ _) => true
  | _ => false
  end.

Section Fitter.

Variable fit : optimiser.
Variable fs : file_system.

(** ** fit_gompertz *)

Definition fit_gompertz (t y : list R) (A B C : R) (xmin : list R)
  : result ModelResult :=
  let params := make_params A B C in
  bind (index xmin 0) (fun xmin0 =>
  let params :=
    {| par_A := set_min (par_A params) xmin0;
       par_B := par_B params; par_C := par_C params |} in
  bind (index xmin 1) (fun xmin1 =>
  let params :=
    {| par_A := par_A params;
       par_B := set_min (par_B params) xmin1; par_C := par_C params |} in
  bind (index xmin 2) (fun xmin2 =>
  let params :=
    {| par_A := par_A params; par_B := par_B params;
       par_C := set_min (par_C params) xmin2 |} in
  fit gompertz y params t))).

(** ** get_growth_rates *)

(** The loop over the wavelengths. *)
Definition fit_channels (biomass_df : dict (list R)) (t : list R)
    (wavelengths : list string) (x0 xmin : list R)
  : result (dict ModelResult) :=
  for_each wavelengths
    (fun fit_results wv =>
       bind (column biomass_df wv) (fun y =>
       bind (index x0 0) (fun a =>
       bind (index x0 1) (fun b =>
       bind (index x0 2) (fun c =>
       bind (fit_gompertz t y a b c xmin) (fun r =>
       ret (dict_set wv r fit_results)))))))
    [].

(** The [if out_dir:] block; it has no handler: a write that raises ends
    the call. *)
Definition save (out_dir : string) (t : list R) (fit_results : dict ModelResult)
  : io unit :=
  (let fit_file := (out_dir ++ "/best_fit.xlsx")%string in
   emit fs (OpenWorkbook fit_file) ;;
   io_for_each fit_results
     (fun kv =>
        let key := fst kv in
        let fit := snd kv in
        (* Save report to txt *)
        let file_path := (out_dir ++ "/lmfit_" ++ key ++ "_report")%string in
        emit fs (WriteText file_path (fit_report fit)) ;;
        (* Save best fit to excel *)
        let bf_df :=
          {| bf_time := t;
             bf_best_fit := best_fit fit;
             bf_uncertainty := eval_uncertainty fit (9545 / 10000) t |} in
        emit fs (WriteSheet fit_file key bf_df)) ;;
   emit fs (CloseWorkbook fit_file))%io.

Definition get_growth_rates (biomass_df : dict (list R))
    (wavelengths : option (list string)) (x0 xmin : option (list R))
    (out_dir : option string)
  : io (dict ModelResult) :=
  (let wavelengths := default wavelengths ["800"%string] in
   let x0 := default x0 [1 / 10; 1 / 10; 20] in
   let xmin := default xmin [0; 0; 0] in
   t <- lift (column biomass_df "time") ;;
   fit_results <- lift (fit_channels biomass_df t wavelengths x0 xmin) ;;
   (if given out_dir
    then save (default out_dir EmptyString) t fit_results
    else io_ret tt) ;;
   io_ret fit_results)%io.

End Fitter.

(** An optimiser that takes no step: every parameter stays at its initial
    value, moved up to its lower bound when it starts below it (what
    lmfit does with an initial value outside the box), and the curve is
    the model at those values.  It stands in for lmfit in the examples. *)
Definition raised (p : Param) : result R :=
  match min p with
  | NegInf => ret (value p)
  | Finite l => ret (Rmax l (value p))
  | PosInf => raise (FitError "no value is above +inf")
  end.

Definition no_step_result (a b c : R) (curve : list R) : ModelResult :=
  {| best_A := a; best_B := b; best_C := c;
     best_fit := curve;
     fit_report := "no step taken";
     eval_uncertainty := fun _ ts => map (fun _ => 0) ts |}.

Definition no_step_fit : optimiser :=
  fun f y params t =>
    bind (raised (par_A params)) (fun a =>
    bind (raised (par_B params)) (fun b =>
    bind (raised (par_C params)) (fun c =>
    bind (traverse (fun ti => match f ti a b c with
                              | Some v => ret v
                              | None => raise (FitError "non-finite model value")
                              end) t) (fun curve =>
    ret (no_step_result a b c curve))))).

End models.

(* ================================================================== *)
(** * Notions the properties are stated with                           *)
(* ================================================================== *)

Module notions.
Import pl biomass models.
Local Open Scope Z_scope.

(** What one turn of the loop of [get_growth_rates] computes for the
    channel [wv]: the column, the initial guess, the fit. *)
Definition fit_channel (fit : optimiser) (biomass_df : dict (list R)) (t : list R)
    (x0 xmin : list R) (wv : string) : result ModelResult :=
  bind (column biomass_df wv) (fun y =>
  bind (index x0 0) (fun a =>
  bind (index x0 1) (fun b =>
  bind (index x0 2) (fun c =>
  fit_gompertz fit t y a b c xmin)))).

(** The writes of the [if out_dir:] block, in order: the workbook is
    opened, every entry of the result map gets a text report and a
    sheet, the workbook is closed. *)
Definition written (out_dir : string) (t : list R) (fit_results : dict ModelResult)
  : list event :=
  let fit_file := (out_dir ++ "/best_fit.xlsx")%string in
  OpenWorkbook fit_file
  :: flat_map
       (fun kv =>
          [WriteText (out_dir ++ "/lmfit_" ++ fst kv ++ "_report")%string
             (fit_report (snd kv));
           WriteSheet fit_file (fst kv)
             {| bf_time := t;
                bf_best_fit := best_fit (snd kv);
                bf_uncertainty := eval_uncertainty (snd kv) (9545 / 10000)%R t |}])
       fit_results
  ++ [CloseWorkbook fit_file].

(** The writes [events] attempted in order from the trace [w]: the first
    one that raises ends the attempt, the writes before it stay done. *)
Fixpoint attempt (fs : file_system) (events : list event) (w : list event)
  : result unit * list event :=
  match events with
  | [] => (inr tt, w)
  | e :: events' =>
      match fs w e with
      | None => attempt fs events' (w ++ [e])
      | Some x => (inl x, w)
      end
  end.

(** A file system that takes every write, and one without the output
    directory: the text report cannot be opened there. *)
Definition writable : file_system := fun _ _ => None.

Definition no_such_directory : file_system :=
  fun _ e =>
    match e with
    | WriteText path _ => Some (FileNotFoundError path)
    | CloseWorkbook path => Some (FileCreateError path)
    | _ => None
    end.

(** The defaults of [get_growth_rates]. *)
Definition default_wavelengths : list string := ["800"%string].
Definition default_x0 : list R := [1 / 10; 1 / 10; 20]%R.
Definition default_xmin : list R := [0; 0; 0]%R.

(** A frame with a time column and one channel, for the examples, and
    what [no_step_fit] returns on it from the default guess and bounds. *)
Definition two_points : dict (list R) :=
  [("time"%string, [0; 1]%R); ("800"%string, [1 / 100; 2 / 100]%R)].

(** A frame sampled from a growth curve (A = 2, B = 0.8, C = 15), a
    guess close to it, and what [no_step_fit] returns from that guess. *)
Definition growth_times : list R := [0; 10; 15; 16; 17; 18; 20; 25; 30]%R.

Definition growth_curve : dict (list R) :=
  [("time"%string, growth_times);
   ("800"%string,
    [0; 0; 13 / 100; 80 / 100; 147 / 100; 180 / 100; 198 / 100; 2; 2]%R)].

Definition near_x0 : list R := [2; 1; 15]%R.

Definition growth_curve_fit : ModelResult :=
  no_step_result (Rmax 0 2) (Rmax 0 1) (Rmax 0 15)
    (map (fun ti => GrowthModel_value ti (Rmax 0 2) (Rmax 0 1) (Rmax 0 15))
         growth_times).

Definition two_points_fit : ModelResult :=
  no_step_result (Rmax 0 (1 / 10)) (Rmax 0 (1 / 10)) (Rmax 0 20)
    (map (fun ti => GrowthModel_value ti (Rmax 0 (1 / 10)) (Rmax 0 (1 / 10)) (Rmax 0 20))
         [0; 1]%R).

(** The read options [load_tecan] passes for the absorbance block and for
    the date cell. *)
Definition absorbance_options (n_wells : option Z) (col_letters : option string)
  : read_options :=
  [("header_row"%string, OInt 31); ("n_rows"%string, OInt (default n_wells 4));
   ("use_columns"%string, OStr (default col_letters "A:AE"%string))].

Definition date_options : read_options :=
  [("skip_rows"%string, OInt 27); ("n_rows"%string, OInt 1);
   ("use_columns"%string, OStr "B"%string)].

(** The frame [load_tecan] sorts: the frames of the files, pooled. *)
Definition pooled (open_workbook : string -> result (dict tecan_sheet))
    (files : list string) (n_wells : option Z) (col_letters : option string)
    (keys_options : option read_options) : result (list tecan_row) :=
  bind (for_each files
          (fun files_dict f =>
             bind (load_file open_workbook (default n_wells 4%Z)
                     (default col_letters "A:AE"%string) keys_options f)
                  (fun df => ret (dict_set f df files_dict)))
          [])
       (fun files_dict => pl.concat (values files_dict)).

(** The readings of a sheet with their key columns: the inner join with
    the key block when the join is requested, no key column otherwise. *)
Definition keyed (n_wells : option Z) (col_letters : option string)
    (keys_options : option read_options) (sh : tecan_sheet)
  : list (reading * list string) :=
  if requested keys_options
  then pl.join well key_well (fun r k => (r, sample k))
         (read_absorbance sh (absorbance_options n_wells col_letters))
         (read_keys sh (default keys_options []))
  else map (fun r => (r, [])) (read_absorbance sh (absorbance_options n_wells col_letters)).

(** A row of the pooled frame comes from a reading [r] of a sheet read at
    [seconds], with the key columns [k]. *)
Definition tecan_row_of (r : reading) (k : list string) (seconds : Z) : tecan_row :=
  {| t_well := well r; t_absorbance := absorbance r; t_sample := k;
     date := seconds * 1000000 |}.

(** [time] as [load_tecan] computes it for a row, from the timestamp [d0]
    of the first row of the sorted frame. *)
Definition elapsed_days (d0 : Z) (x : tecan_row) : timed tecan_row R :=
  with_time x (IZR (pl.total_seconds (date x - d0)) / (3600 * 24))%R.

(** The dry-weight samples [get_dw_df] keeps, and the concentrations
    measured at the timestamp [d] among them. *)
Definition vss (raw : list dw_sample) : list dw_sample :=
  filter (fun r => String.eqb (type r) "VSS") raw.

Definition replicates (raw : list dw_sample) (d : Z) : list R :=
  map Biomass (filter (fun r => (dw_date r =? d)%Z) (vss raw)).

Definition dw_columns : list string := ["type"; "Biomass (g/L)"; "date"]%string.

(** The aggregated row of the timestamp [d]: the mean and the standard
    deviation of the concentrations measured at [d]. *)
Definition summary (raw : list dw_sample) (d : Z) : dw_summary :=
  {| s_date := d;
     s_Biomass := pl.mean (replicates raw d);
     biomass.std := pl.std (replicates raw d) |}.

(** A plate-reader workbook for the examples: two sheets of two wells,
    the first read a day after the second; the key block knows well A1
    only. *)
Definition plate (seconds : Z) : tecan_sheet :=
  {| read_absorbance := fun _ =>
       [ {| well := "A1"; absorbance := [1 / 10; 2 / 10]%R |};
         {| well := "B1"; absorbance := [3 / 10; 4 / 10]%R |} ];
     read_keys := fun _ => [ {| key_well := "A1"; sample := ["blank"%string] |} ];
     read_date := fun _ => Some seconds |}.

Definition one_workbook (f : string) : result (dict tecan_sheet) :=
  if String.eqb f "od.xlsx"
  then ret [("Sheet1"%string, plate 86400); ("Sheet2"%string, plate 0)]
  else raise (FileNotFoundError f).

Definition some_keys : option read_options :=
  Some [("skip_rows"%string, OInt 40)].

Definition well_A1 : reading := {| well := "A1"; absorbance := [1 / 10; 2 / 10]%R |}.
Definition well_B1 : reading := {| well := "B1"; absorbance := [3 / 10; 4 / 10]%R |}.

(** The pooled rows of that workbook without the key join. *)
Definition one_workbook_rows : list tecan_row :=
  [ tecan_row_of well_A1 [] 86400; tecan_row_of well_B1 [] 86400;
    tecan_row_of well_A1 [] 0; tecan_row_of well_B1 [] 0 ].

(** A dry-weight workbook for the examples: two VSS replicates and one
    TSS sample at the first timestamp, a single VSS sample at the
    second. *)
Definition dw_rows : list dw_sample :=
  [ {| type := "VSS"; Biomass := 1; dw_date := 5000000 |};
    {| type := "TSS"; Biomass := 7; dw_date := 5000000 |};
    {| type := "VSS"; Biomass := 2; dw_date := 9000000 |};
    {| type := "VSS"; Biomass := 3; dw_date := 5000000 |} ]%R.

Definition dw_workbook (f : string) (columns : option (list string))
  : result (dict (list dw_sample)) :=
  if String.eqb f "dw.xlsx"
  then ret [("Sheet1"%string, dw_rows)]
  else raise (FileNotFoundError f).

(** A plate-reader workbook whose only sheet has a date and no reading. *)
Definition blank_plate : tecan_sheet :=
  {| read_absorbance := fun _ => [];
     read_keys := fun _ => [];
     read_date := fun _ => Some 0 |}.

Definition blank_workbook (f : string) : result (dict tecan_sheet) :=
  if String.eqb f "blank.xlsx"
  then ret [("Sheet1"%string, blank_plate)]
  else raise (FileNotFoundError f).

(** Dry-weight workbooks: one without any VSS sample, and the VSS samples
    of [dw_rows] alone, spread over two sheets. *)
Definition tss_workbook (f : string) (columns : option (list string))
  : result (dict (list dw_sample)) :=
  if String.eqb f "tss.xlsx"
  then ret [("Sheet1"%string,
             [ {| type := "TSS"; Biomass := 7%R; dw_date := 5000000 |} ])]
  else raise (FileNotFoundError f).

Definition vss_workbook (f : string) (columns : option (list string))
  : result (dict (list dw_sample)) :=
  if String.eqb f "vss.xlsx"
  then ret [("Sheet1"%string,
             [ {| type := "VSS"; Biomass := 1%R; dw_date := 5000000 |};
               {| type := "VSS"; Biomass := 2%R; dw_date := 9000000 |} ]);
            ("Sheet2"%string,
             [ {| type := "VSS"; Biomass := 3%R; dw_date := 5000000 |} ])]
  else raise (FileNotFoundError f).

End notions.

(* ================================================================== *)
(** * The growth model                                                 *)
(* ================================================================== *)

Section GompertzFacts.
Import models.
Local Open Scope R_scope.

Lemma div_nonzero (x y : R) : y <> 0 -> div x y = Some (x / y).
Proof.
  intros Hy. unfold div. destruct (Req_dec_T y 0) as [E | _].
  - contradiction.
  - reflexivity.
Qed.

Lemma div_zero (x : R) : div x 0 = None.
Proof.
  unfold div. destruct (Req_dec_T 0 0) as [_ | N].
  - reflexivity.
  - exfalso. apply N. reflexivity.
Qed.

Lemma div_spec (x y : R) :
  (y = 0 /\ div x y = None) \/ (y <> 0 /\ div x y = Some (x / y)).
Proof.
  destruct (Req_dec_T y 0) as [E | N].
  - left. split; [exact E |]. subst y. apply div_zero.
  - right. split; [exact N |]. apply div_nonzero. exact N.
Qed.

Lemma gompertz_nonzero (t A B C : R) :
  A <> 0 -> gompertz t A B C = Some (A * exp (- exp (B * np_e / A * (C - t) + 1))).
Proof.
  intros HA. unfold gompertz. rewrite (div_nonzero _ _ HA). reflexivity.
Qed.

(** With [A = 0] the quotient has no value and neither has the model. *)
Lemma gompertz_zero_A (t B C : R) : gompertz t 0 B C = None.
Proof. unfold gompertz. rewrite div_zero. reflexivity. Qed.

(** C1: for every t and every A, B, C with A nonzero, [gompertz] computes
    A * exp(-exp((B*e/A)*(C - t) + 1)), the value the design document
    gives for the growth model. *)
Theorem gompertz_is_GrowthModel_value (t A B C : R) :
  A <> 0 -> gompertz t A B C = Some (GrowthModel_value t A B C).
Proof.
  intros HA. unfold gompertz, GrowthModel_value, np_e.
  destruct (div_spec (B * exp 1) A) as [[E _] | [_ E]].
  - contradiction.
  - rewrite E. reflexivity.
Qed.

Lemma gompertz_is_GrowthModel_value_witness :
  gompertz 3 2 (1 / 2) 10 = Some (GrowthModel_value 3 2 (1 / 2) 10).
Proof. apply gompertz_is_GrowthModel_value. lra. Defined.

(** ** The value at [t = C] *)

Lemma gompertz_at_lag (A B C : R) :
  A <> 0 -> gompertz C A B C = Some (A * exp (- exp 1)).
Proof.
  intros HA. rewrite (gompertz_nonzero _ _ _ _ HA).
  do 3 f_equal. unfold Rminus. rewrite Rplus_opp_r, Rmult_0_r, Rplus_0_l.
  reflexivity.
Qed.

(** Rational bounds on [exp]: [exp x] lies between [(1 + x/n)^n] and
    [1 / (1 - x/n)^n]. *)

Lemma exp_mult_nat (x : R) (n : nat) : exp (INR n * x) = exp x ^ n.
Proof.
  induction n as [| n IH].
  - simpl. rewrite Rmult_0_l. apply exp_0.
  - rewrite S_INR, Rmult_plus_distr_r, Rmult_1_l, exp_plus, IH. simpl. ring.
Qed.

Lemma exp_lower_pow (x : R) (n : nat) :
  (0 < n)%nat -> 0 <= 1 + x / INR n -> (1 + x / INR n) ^ n <= exp x.
Proof.
  intros Hn Hpos.
  assert (HnR : 0 < INR n) by (apply lt_0_INR; exact Hn).
  replace (exp x) with (exp (INR n * (x / INR n))).
  - rewrite exp_mult_nat. apply pow_incr. split; [exact Hpos | apply exp_ineq1_le].
  - f_equal. field. lra.
Qed.

Lemma exp_upper_pow (x : R) (n : nat) :
  (0 < n)%nat -> 0 < 1 - x / INR n -> exp x <= / (1 - x / INR n) ^ n.
Proof.
  intros Hn Hpos.
  assert (HnR : 0 < INR n) by (apply lt_0_INR; exact Hn).
  assert (E : 1 + - x / INR n = 1 - x / INR n) by (field; lra).
  assert (H : (1 + - x / INR n) ^ n <= exp (- x)).
  { apply exp_lower_pow; [exact Hn |]. rewrite E. lra. }
  rewrite E, exp_Ropp in H.
  assert (Hp : 0 < (1 - x / INR n) ^ n) by (apply pow_lt; exact Hpos).
  rewrite <- (Rinv_inv (exp x)).
  apply Rinv_le_contravar; assumption.
Qed.

Lemma frac_cross_le (a b c d : R) :
  0 < b -> 0 < d -> a * d <= c * b -> a / b <= c / d.
Proof.
  intros Hb Hd H.
  apply Rmult_le_reg_r with (b * d); [apply Rmult_lt_0_compat; assumption |].
  replace (a / b * (b * d)) with (a * d) by (field; lra).
  replace (c / d * (b * d)) with (c * b) by (field; lra).
  exact H.
Qed.

Lemma ratio_pow (p q : Z) (n : nat) :
  (IZR p / IZR q) ^ n = IZR (p ^ Z.of_nat n) / IZR (q ^ Z.of_nat n).
Proof. unfold Rdiv. rewrite Rpow_mult_distr, pow_inv, !pow_IZR. reflexivity. Qed.

(** A rational below a power of a rational, decided on the integers. *)
Lemma ratio_pow_ge (p q c d : Z) (n : nat) :
  (0 < q)%Z -> (0 < d)%Z ->
  (c * q ^ Z.of_nat n <= p ^ Z.of_nat n * d)%Z ->
  IZR c / IZR d <= (IZR p / IZR q) ^ n.
Proof.
  intros Hq Hd H. rewrite ratio_pow.
  apply frac_cross_le.
  - apply IZR_lt. exact Hd.
  - apply IZR_lt. apply Z.pow_pos_nonneg; lia.
  - rewrite <- !mult_IZR. apply IZR_le. exact H.
Qed.

Lemma INR_1024 : INR 1024 = 1024.
Proof. rewrite INR_IZR_INZ. reflexivity. Qed.

Lemma INR_512 : INR 512 = 512.
Proof. rewrite INR_IZR_INZ. reflexivity. Qed.

Lemma e_lower : 2716 / 1000 <= exp 1.
Proof.
  apply Rle_trans with ((1 + 1 / INR 1024) ^ 1024).
  - replace (1 + 1 / INR 1024) with (IZR 1025 / IZR 1024)
      by (rewrite INR_1024; field).
    apply (ratio_pow_ge 1025 1024 2716 1000 1024); [lia | lia |].
    vm_compute. discriminate.
  - apply exp_lower_pow; [lia |]. rewrite INR_1024. lra.
Qed.

Lemma e_upper : exp 1 <= 2720 / 1000.
Proof.
  apply Rle_trans with (/ (1 - 1 / INR 1024) ^ 1024).
  - apply exp_upper_pow; [lia |]. rewrite INR_1024. lra.
  - replace (1 - 1 / INR 1024) with (IZR 1023 / IZR 1024)
      by (rewrite INR_1024; field).
    replace (2720 / 1000) with (/ (IZR 1000 / IZR 2720)) by field.
    apply Rinv_le_contravar; [lra |].
    apply (ratio_pow_ge 1023 1024 1000 2720 1024); [lia | lia |].
    vm_compute. discriminate.
Qed.

Lemma exp_increasing_le (x y : R) : x <= y -> exp x <= exp y.
Proof.
  intros [H | H].
  - left. apply exp_increasing. exact H.
  - right. rewrite H. reflexivity.
Qed.

(** exp(-e) = 0.06599 to the fifth decimal; three decimals are enough here. *)
Lemma exp_minus_e_lower : 65 / 1000 <= exp (- exp 1).
Proof.
  apply Rle_trans with (exp (- (2720 / 1000))).
  - apply Rle_trans with ((1 + - (2720 / 1000) / INR 512) ^ 512).
    + replace (1 + - (2720 / 1000) / INR 512) with (IZR 3183 / IZR 3200)
        by (rewrite INR_512; field).
      apply (ratio_pow_ge 3183 3200 65 1000 512); [lia | lia |].
      vm_compute. discriminate.
    + apply exp_lower_pow; [lia |]. rewrite INR_512. lra.
  - apply exp_increasing_le. pose proof e_upper. lra.
Qed.

Lemma exp_minus_e_upper : exp (- exp 1) <= 67 / 1000.
Proof.
  apply Rle_trans with (exp (- (2716 / 1000))).
  - apply exp_increasing_le. pose proof e_lower. lra.
  - rewrite exp_Ropp.
    replace (67 / 1000) with (/ (IZR 1000 / IZR 67)) by field.
    apply Rinv_le_contravar; [lra |].
    apply Rle_trans with ((1 + 2716 / 1000 / INR 512) ^ 512).
    + replace (1 + 2716 / 1000 / INR 512) with (IZR 128679 / IZR 128000)
        by (rewrite INR_512; field).
      apply (ratio_pow_ge 128679 128000 1000 67 512); [lia | lia |].
      vm_compute. discriminate.
    + apply exp_lower_pow; [lia |]. rewrite INR_512. lra.
Qed.

(** C4, as the code has it: at t = C the model with A = 1.0, B = 0.5,
    C = 10.0 yields A * exp(-e), which is 0.066 * A within 1e-3 (and not
    0.3679 * A = A * exp(-1)). *)
Theorem gompertz_at_C_literal :
  exists v : R,
    gompertz 10 1 (1 / 2) 10 = Some v /\
    v = 1 * exp (- exp 1) /\
    Rabs (v - 66 / 1000 * 1) <= 1 / 1000.
Proof.
  exists (1 * exp (- exp 1)). split; [| split].
  - apply gompertz_at_lag. lra.
  - reflexivity.
  - pose proof exp_minus_e_lower. pose proof exp_minus_e_upper.
    apply Rabs_le. lra.
Qed.

(** C4, as the claim states it, fails: the value at t = C is not within
    1e-3 of 0.3679 * A. *)
Lemma gompertz_at_C_not_0_3679 :
  ~ (exists v : R,
       gompertz 10 1 (1 / 2) 10 = Some v /\
       Rabs (v - 3679 / 10000 * 1) <= 1 / 1000).
Proof.
  intros [v [Hv Hclose]].
  rewrite gompertz_at_lag in Hv by lra.
  injection Hv as Hv. subst v.
  pose proof exp_minus_e_upper as Hu.
  unfold Rabs in Hclose. destruct (Rcase_abs _) in Hclose; lra.
Qed.

End GompertzFacts.

(* ================================================================== *)
(** * The fitter                                                       *)
(* ================================================================== *)

Section FitterFacts.
Import models notions.
Local Open Scope R_scope.

Lemma bind_inr {A B : Type} (m : result A) (k : A -> result B) (b : B) :
  bind m k = inr b -> exists a, m = inr a /\ k a = inr b.
Proof.
  destruct m as [e | a]; simpl; intros H.
  - discriminate.
  - exists a. split; [reflexivity | exact H].
Qed.

(** The parameters [fit_gompertz] hands to the optimiser. *)
Lemma fit_gompertz_params (fit : optimiser) (t y : list R) (A B C a b c : R)
    (more : list R) :
  fit_gompertz fit t y A B C (a :: b :: c :: more) =
  fit gompertz y
    {| par_A := {| value := A; min := Finite a; max := PosInf |};
       par_B := {| value := B; min := Finite b; max := PosInf |};
       par_C := {| value := C; min := Finite c; max := PosInf |} |}
    t.
Proof. reflexivity. Qed.

(** Fewer than three lower bounds: [xmin[i]] raises before any fit. *)
Lemma fit_gompertz_short_xmin (fit : optimiser) (t y : list R) (A B C : R)
    (xmin : list R) :
  (List.length xmin < 3)%nat -> fit_gompertz fit t y A B C xmin = inl IndexError.
Proof.
  intros H. destruct xmin as [| a [| b [| c more]]]; simpl in H; try lia; reflexivity.
Qed.

(** C9: with lower bounds (Amin, Bmin, Cmin), [fit_gompertz] runs the
    optimiser on parameters that start at A, B, C, whose [min] is the
    corresponding lower bound and whose [max] is left at infinity; an
    optimiser that honours [min] therefore returns A >= Amin, B >= Bmin
    and C >= Cmin, and no upper bound constrains them. *)
Theorem fit_gompertz_lower_bounds (fit : optimiser) (t y : list R)
    (A B C Amin Bmin Cmin : R) (r : ModelResult) :
  keeps_lower_bounds fit ->
  fit_gompertz fit t y A B C [Amin; Bmin; Cmin] = inr r ->
  exists params : Parameters,
    fit_gompertz fit t y A B C [Amin; Bmin; Cmin] = fit gompertz y params t /\
    (value (par_A params) = A /\ value (par_B params) = B /\ value (par_C params) = C) /\
    (min (par_A params) = Finite Amin /\ min (par_B params) = Finite Bmin /\
     min (par_C params) = Finite Cmin) /\
    (max (par_A params) = PosInf /\ max (par_B params) = PosInf /\
     max (par_C params) = PosInf) /\
    (Amin <= best_A r /\ Bmin <= best_B r /\ Cmin <= best_C r).
Proof.
  intros Hfit Hr. rewrite fit_gompertz_params in Hr.
  eexists. split; [apply fit_gompertz_params |].
  simpl. repeat split; try reflexivity; apply (Hfit _ _ _ _ _ Hr).
Qed.

Lemma raised_above (p : Param) (v : R) : raised p = inr v -> above (min p) v.
Proof.
  unfold raised. destruct (min p) as [| l |]; simpl; intros H.
  - exact I.
  - injection H as <-. apply Rmax_l.
  - discriminate.
Qed.

Lemma no_step_fit_keeps_lower_bounds : keeps_lower_bounds no_step_fit.
Proof.
  intros f y params t r H. unfold no_step_fit in H.
  apply bind_inr in H as [a [Ha H]].
  apply bind_inr in H as [b [Hb H]].
  apply bind_inr in H as [c [Hc H]].
  apply bind_inr in H as [curve [_ H]].
  injection H as <-. simpl.
  repeat split; apply raised_above; assumption.
Qed.

Lemma traverse_gompertz (a b c : R) (t : list R) :
  a <> 0 ->
  traverse (fun ti => match gompertz ti a b c with
                      | Some v => ret v
                      | None => raise (FitError "non-finite model value")
                      end) t
  = inr (map (fun ti => GrowthModel_value ti a b c) t).
Proof.
  intros Ha. induction t as [| ti t IH]; simpl.
  - reflexivity.
  - rewrite (gompertz_nonzero ti a b c Ha), IH. reflexivity.
Qed.

Lemma no_step_fit_gompertz (y t : list R) (A B C la lb lc : R) :
  Rmax la A <> 0 ->
  no_step_fit gompertz y
    {| par_A := {| value := A; min := Finite la; max := PosInf |};
       par_B := {| value := B; min := Finite lb; max := PosInf |};
       par_C := {| value := C; min := Finite lc; max := PosInf |} |} t
  = inr (no_step_result (Rmax la A) (Rmax lb B) (Rmax lc C)
           (map (fun ti => GrowthModel_value ti (Rmax la A) (Rmax lb B) (Rmax lc C)) t)).
Proof.
  intros Ha. unfold no_step_fit, raised. simpl.
  rewrite (traverse_gompertz _ _ _ _ Ha). reflexivity.
Qed.

Lemma Rmax_0_tenth_nonzero : Rmax 0 (1 / 10) <> 0.
Proof. rewrite Rmax_right by lra. lra. Qed.

Lemma two_points_fit_channel :
  fit_channel no_step_fit two_points [0; 1] default_x0 default_xmin "800"
  = inr two_points_fit.
Proof.
  unfold fit_channel, two_points, default_x0, default_xmin. simpl.
  rewrite fit_gompertz_params.
  apply no_step_fit_gompertz. exact Rmax_0_tenth_nonzero.
Qed.

Lemma fit_gompertz_lower_bounds_witness :
  exists params : Parameters,
    fit_gompertz no_step_fit [0; 1] [1 / 100; 2 / 100] (1 / 10) (1 / 10) 20 [0; 0; 0]
    = no_step_fit gompertz [1 / 100; 2 / 100] params [0; 1] /\
    (value (par_A params) = 1 / 10 /\ value (par_B params) = 1 / 10 /\
     value (par_C params) = 20) /\
    (min (par_A params) = Finite 0 /\ min (par_B params) = Finite 0 /\
     min (par_C params) = Finite 0) /\
    (max (par_A params) = PosInf /\ max (par_B params) = PosInf /\
     max (par_C params) = PosInf) /\
    (0 <= best_A two_points_fit /\ 0 <= best_B two_points_fit /\
     0 <= best_C two_points_fit).
Proof.
  apply (fit_gompertz_lower_bounds no_step_fit [0; 1] [1 / 100; 2 / 100]
           (1 / 10) (1 / 10) 20 0 0 0 two_points_fit).
  - exact no_step_fit_keeps_lower_bounds.
  - exact two_points_fit_channel.
Defined.

End FitterFacts.

(* ================================================================== *)
(** * The loop over the channels and what is written                   *)
(* ================================================================== *)

Section DictFacts.
Context {V : Type}.

Lemma dict_get_set_same (k : string) (v : V) (d : dict V) :
  dict_get k (dict_set k v d) = Some v.
Proof.
  induction d as [| [k' v'] d IH]; simpl.
  - rewrite String.eqb_refl. reflexivity.
  - destruct (String.eqb k' k) eqn:E; simpl.
    + rewrite String.eqb_refl. reflexivity.
    + rewrite E. exact IH.
Qed.

Lemma dict_get_set_other (k k0 : string) (v : V) (d : dict V) :
  k0 <> k -> dict_get k0 (dict_set k v d) = dict_get k0 d.
Proof.
  intros Hne. induction d as [| [k' v'] d IH]; simpl.
  - destruct (String.eqb k k0) eqn:E.
    + apply String.eqb_eq in E. congruence.
    + reflexivity.
  - destruct (String.eqb k' k) eqn:E; simpl.
    + apply String.eqb_eq in E. subst k'.
      destruct (String.eqb k k0) eqn:E0.
      * apply String.eqb_eq in E0. congruence.
      * reflexivity.
    + destruct (String.eqb k' k0); [reflexivity | exact IH].
Qed.

Lemma dict_get_keys (k : string) (d : dict V) :
  In k (keys d) <-> exists v, dict_get k d = Some v.
Proof.
  induction d as [| [k' v'] d IH]; simpl.
  - split; [intros [] | intros [v H]; discriminate].
  - destruct (String.eqb k' k) eqn:E.
    + apply String.eqb_eq in E. subst k'. split.
      * intros _. exists v'. reflexivity.
      * intros _. left. reflexivity.
    + apply String.eqb_neq in E. rewrite <- IH. split.
      * intros [H | H]; [contradiction | exact H].
      * intros H. right. exact H.
Qed.

End DictFacts.

(** The loops of the package that fill a dict: [for k in ks: d[k] = step(k)]. *)
Section DictLoop.
Context {V : Type}.
Variable step : string -> result V.

Let turn (d : dict V) (k : string) : result (dict V) :=
  bind (step k) (fun v => ret (dict_set k v d)).

Lemma for_each_ext {A S : Type} (xs : list A) (f g : S -> A -> result S) (s : S) :
  (forall s' x, f s' x = g s' x) -> for_each xs f s = for_each xs g s.
Proof.
  intros H. revert s. induction xs as [| x xs IH]; intros s; simpl.
  - reflexivity.
  - rewrite H. destruct (g s x) as [e | s']; simpl; [reflexivity | apply IH].
Qed.

(** The first key whose step raises ends the loop with its exception. *)
Lemma turns_first_failure (pre post : list string) (k : string) (e : exn)
    (acc : dict V) :
  (forall k', In k' pre -> exists v, step k' = inr v) ->
  step k = inl e ->
  for_each (pre ++ k :: post) turn acc = inl e.
Proof.
  revert acc. induction pre as [| k0 pre IH]; intros acc Hpre Hk; simpl.
  - unfold turn at 1. rewrite Hk. reflexivity.
  - destruct (Hpre k0 (or_introl eq_refl)) as [v Hv].
    unfold turn at 1. rewrite Hv. simpl.
    apply IH; [| exact Hk]. intros k' Hk'. apply Hpre. right. exact Hk'.
Qed.

(** Without an exception the loop ends with every key in the dict. *)
Lemma turns_all (ks : list string) (acc : dict V) :
  (forall k, In k ks -> exists v, step k = inr v) ->
  exists d,
    for_each ks turn acc = inr d /\
    (forall k v, In k ks -> step k = inr v -> dict_get k d = Some v) /\
    (forall k, ~ In k ks -> dict_get k d = dict_get k acc).
Proof.
  revert acc. induction ks as [| k0 ks IH]; intros acc Hall; simpl.
  - exists acc. split; [reflexivity |]. split.
    + intros k v [].
    + intros k _. reflexivity.
  - destruct (Hall k0 (or_introl eq_refl)) as [v0 Hv0].
    unfold turn at 1. rewrite Hv0. simpl.
    destruct (IH (dict_set k0 v0 acc)) as [d [Hd [Hin Hout]]].
    { intros k Hk. apply Hall. right. exact Hk. }
    exists d. split; [exact Hd |]. split.
    + intros k v Hk Hv.
      destruct (in_dec string_dec k ks) as [Hkks | Hkks].
      * apply Hin; assumption.
      * destruct Hk as [<- | Hk]; [| contradiction].
        rewrite (Hout k0 Hkks), dict_get_set_same. congruence.
    + intros k Hk. rewrite Hout.
      * apply dict_get_set_other. intros E. apply Hk. left. symmetry. exact E.
      * intros Hkks. apply Hk. right. exact Hkks.
Qed.

(** A loop that ends without exception met none. *)
Lemma turns_inr (ks : list string) (acc d : dict V) :
  for_each ks turn acc = inr d ->
  forall k, In k ks -> exists v, step k = inr v.
Proof.
  revert acc. induction ks as [| k0 ks IH]; intros acc H k Hk; simpl in *.
  - contradiction.
  - apply bind_inr in H as [acc' [Hturn H]].
    unfold turn in Hturn. apply bind_inr in Hturn as [v [Hv _]].
    destruct Hk as [<- | Hk].
    + exists v. exact Hv.
    + apply (IH _ H). exact Hk.
Qed.

Lemma dict_set_In (k k' : string) (v v' : V) (d : dict V) :
  In (k', v') (dict_set k v d) -> (k' = k /\ v' = v) \/ In (k', v') d.
Proof.
  induction d as [| [k0 v0] d IH]; simpl.
  - intros [E | []]. left. injection E as <- <-. split; reflexivity.
  - destruct (String.eqb k0 k); simpl.
    + intros [E | H].
      * left. injection E as <- <-. split; reflexivity.
      * right. right. exact H.
    + intros [E | H].
      * right. left. exact E.
      * destruct (IH H) as [L | R']; [left; exact L | right; right; exact R'].
Qed.

Lemma dict_set_In_same (k : string) (v : V) (d : dict V) :
  In (k, v) (dict_set k v d).
Proof.
  induction d as [| [k0 v0] d IH]; simpl.
  - left. reflexivity.
  - destruct (String.eqb k0 k); simpl; [left; reflexivity | right; exact IH].
Qed.

Lemma dict_set_In_other (k k' : string) (v v' : V) (d : dict V) :
  k' <> k -> In (k', v') d -> In (k', v') (dict_set k v d).
Proof.
  intros Hne. induction d as [| [k0 v0] d IH]; simpl.
  - intros [].
  - destruct (String.eqb k0 k) eqn:E; simpl.
    + apply String.eqb_eq in E. subst k0. intros [H | H].
      * injection H as <- _. contradiction.
      * right. exact H.
    + intros [H | H]; [left; exact H | right; apply IH; exact H].
Qed.

(** Every entry of the dict the loop ends with was there before or was
    computed by a step of the loop. *)
Lemma turns_entries (ks : list string) (acc d : dict V) :
  for_each ks turn acc = inr d ->
  forall k v, In (k, v) d -> In (k, v) acc \/ (In k ks /\ step k = inr v).
Proof.
  revert acc. induction ks as [| k0 ks IH]; intros acc H k v Hkv; simpl in H.
  - injection H as <-. left. exact Hkv.
  - apply bind_inr in H as [acc' [Hturn H]].
    unfold turn in Hturn. apply bind_inr in Hturn as [v0 [Hv0 Hacc']].
    injection Hacc' as <-.
    destruct (IH _ H k v Hkv) as [Hacc | [Hk Hv]].
    + apply dict_set_In in Hacc as [[-> ->] | Hacc].
      * right. split; [left; reflexivity | exact Hv0].
      * left. exact Hacc.
    + right. split; [right; exact Hk | exact Hv].
Qed.

Lemma turns_keep (ks : list string) (acc d : dict V) :
  for_each ks turn acc = inr d ->
  forall k v, In (k, v) acc -> step k = inr v -> In (k, v) d.
Proof.
  revert acc. induction ks as [| k0 ks IH]; intros acc H k v Hkv Hv; simpl in H.
  - injection H as <-. exact Hkv.
  - apply bind_inr in H as [acc' [Hturn H]].
    unfold turn in Hturn. apply bind_inr in Hturn as [v0 [Hv0 Hacc']].
    injection Hacc' as <-.
    apply (IH _ H); [| exact Hv].
    destruct (string_dec k k0) as [-> | Hne].
    + assert (v0 = v) as -> by congruence. apply dict_set_In_same.
    + apply dict_set_In_other; assumption.
Qed.

(** Every key of the loop has its entry in the dict the loop ends with. *)
Lemma turns_have (ks : list string) (acc d : dict V) :
  for_each ks turn acc = inr d ->
  forall k, In k ks -> exists v, step k = inr v /\ In (k, v) d.
Proof.
  revert acc. induction ks as [| k0 ks IH]; intros acc H k Hk; simpl in H.
  - contradiction.
  - apply bind_inr in H as [acc' [Hturn H]].
    unfold turn in Hturn. apply bind_inr in Hturn as [v0 [Hv0 Hacc']].
    injection Hacc' as <-.
    destruct (in_dec string_dec k ks) as [Hkks | Hkks].
    + apply (IH _ H). exact Hkks.
    + destruct Hk as [<- | Hk]; [| contradiction].
      exists v0. split; [exact Hv0 |].
      apply (turns_keep _ _ _ H); [apply dict_set_In_same | exact Hv0].
Qed.

End DictLoop.

Section ChannelLoop.
Import models notions.

Lemma fit_channels_turns (fit : optimiser) (biomass_df : dict (list R))
    (t x0 xmin : list R) (wavelengths : list string) :
  fit_channels fit biomass_df t wavelengths x0 xmin =
  for_each wavelengths
    (fun acc wv =>
       bind (fit_channel fit biomass_df t x0 xmin wv)
            (fun r => ret (dict_set wv r acc)))
    [].
Proof.
  unfold fit_channels. apply for_each_ext. intros acc wv.
  unfold fit_channel.
  destruct (column biomass_df wv) as [e | y]; simpl; [reflexivity |].
  destruct (index x0 0) as [e | a]; simpl; [reflexivity |].
  destruct (index x0 1) as [e | b]; simpl; [reflexivity |].
  destruct (index x0 2) as [e | c]; simpl; reflexivity.
Qed.

End ChannelLoop.

Section GetGrowthRatesFacts.
Import models notions.
Local Open Scope R_scope.

Lemma attempt_app (fs : file_system) (xs ys : list event) (w : list event) :
  attempt fs (xs ++ ys) w =
  match attempt fs xs w with
  | (inr _, w') => attempt fs ys w'
  | (inl e, w') => (inl e, w')
  end.
Proof.
  revert w. induction xs as [| x xs IH]; intros w; simpl.
  - reflexivity.
  - destruct (fs w x) as [e |]; [reflexivity | apply IH].
Qed.

(** What an attempt leaves written is an initial part of the writes. *)
Lemma attempt_prefix (fs : file_system) (events : list event) (w : list event) :
  exists n, snd (attempt fs events w) = w ++ firstn n events.
Proof.
  revert w. induction events as [| e events IH]; intros w; simpl.
  - exists 0%nat. rewrite app_nil_r. reflexivity.
  - destruct (fs w e) as [x |].
    + exists 0%nat. simpl. rewrite app_nil_r. reflexivity.
    + destruct (IH (w ++ [e])) as [n Hn]. exists (S n).
      rewrite Hn, <- app_assoc. reflexivity.
Qed.

(** An attempt that does not raise has done every write. *)
Lemma attempt_inr (fs : file_system) (events : list event) (w : list event) (u : unit) :
  fst (attempt fs events w) = inr u -> snd (attempt fs events w) = w ++ events.
Proof.
  revert w. induction events as [| e events IH]; intros w; simpl.
  - intros _. rewrite app_nil_r. reflexivity.
  - destruct (fs w e) as [x |]; simpl.
    + discriminate.
    + intros H. rewrite (IH _ H), <- app_assoc. reflexivity.
Qed.

Lemma attempt_writable (events : list event) (w : list event) :
  attempt writable events w = (inr tt, w ++ events).
Proof.
  revert w. induction events as [| e events IH]; intros w; simpl.
  - rewrite app_nil_r. reflexivity.
  - rewrite IH, <- app_assoc. reflexivity.
Qed.

Lemma emit_attempt (fs : file_system) (e : event) (w : list event) :
  emit fs e w = attempt fs [e] w.
Proof. unfold emit. simpl. destruct (fs w e); reflexivity. Qed.

Lemma io_bind_attempt (fs : file_system) (m : io unit) (k : unit -> io unit)
    (xs ys : list event) :
  (forall w, m w = attempt fs xs w) ->
  (forall u w, k u w = attempt fs ys w) ->
  forall w, io_bind m k w = attempt fs (xs ++ ys) w.
Proof.
  intros Hm Hk w. unfold io_bind. rewrite Hm, attempt_app.
  destruct (attempt fs xs w) as [[e | u] w']; [reflexivity | apply Hk].
Qed.

Lemma io_for_each_attempt {A : Type} (fs : file_system) (xs : list A)
    (events : A -> list event) (body : A -> io unit) :
  (forall x w, body x w = attempt fs (events x) w) ->
  forall w, io_for_each xs body w = attempt fs (flat_map events xs) w.
Proof.
  intros Hbody. induction xs as [| x xs IH]; intros w; simpl.
  - reflexivity.
  - apply io_bind_attempt; [apply Hbody | intros _; exact IH].
Qed.

(** The [if out_dir:] block attempts the writes of [written], in order. *)
Lemma save_attempt (fs : file_system) (out_dir : string) (t : list R)
    (fit_results : dict ModelResult) (w : list event) :
  save fs out_dir t fit_results w = attempt fs (written out_dir t fit_results) w.
Proof.
  unfold save, written. cbv zeta.
  apply (io_bind_attempt fs _ _ [OpenWorkbook (out_dir ++ "/best_fit.xlsx")]).
  - intros w'. apply emit_attempt.
  - intros _. apply io_bind_attempt.
    + apply io_for_each_attempt. intros kv w'.
      apply (io_bind_attempt fs _ _
               [WriteText (out_dir ++ "/lmfit_" ++ fst kv ++ "_report")%string
                  (fit_report (snd kv))]).
      * intros w''. apply emit_attempt.
      * intros _ w''. apply emit_attempt.
    + intros _ w'. apply emit_attempt.
Qed.

(** [get_growth_rates], step by step. *)
Lemma get_growth_rates_unfold (fit : optimiser) (fs : file_system)
    (biomass_df : dict (list R))
    (wavelengths : option (list string)) (x0 xmin : option (list R))
    (out_dir : option string) (w : list event) :
  get_growth_rates fit fs biomass_df wavelengths x0 xmin out_dir w =
  match column biomass_df "time" with
  | inl e => (inl e, w)
  | inr t =>
      match for_each (default wavelengths default_wavelengths)
              (fun acc wv =>
                 bind (fit_channel fit biomass_df t (default x0 default_x0)
                         (default xmin default_xmin) wv)
                      (fun r => ret (dict_set wv r acc))) [] with
      | inl e => (inl e, w)
      | inr fit_results =>
          if given out_dir
          then match attempt fs (written (default out_dir EmptyString) t fit_results) w with
               | (inr _, w') => (inr fit_results, w')
               | (inl e, w') => (inl e, w')
               end
          else (inr fit_results, w)
      end
  end.
Proof.
  unfold get_growth_rates, io_bind, lift.
  destruct (column biomass_df "time") as [e | t]; [reflexivity |].
  rewrite fit_channels_turns.
  fold default_wavelengths default_x0 default_xmin.
  match goal with |- context [for_each ?ws ?f ?s] => destruct (for_each ws f s) as [e | res] end;
    [reflexivity |].
  destruct (given out_dir).
  - rewrite save_attempt.
    destruct (attempt fs _ w) as [[e | []] w']; reflexivity.
  - reflexivity.
Qed.

(** A call that returns a map has a time column and a loop that ended. *)
Lemma get_growth_rates_inr (fit : optimiser) (fs : file_system)
    (biomass_df : dict (list R))
    (wavelengths : option (list string)) (x0 xmin : option (list R))
    (out_dir : option string) (w : list event) (fit_results : dict ModelResult) :
  fst (get_growth_rates fit fs biomass_df wavelengths x0 xmin out_dir w) = inr fit_results ->
  exists t,
    column biomass_df "time" = inr t /\
    for_each (default wavelengths default_wavelengths)
      (fun acc wv =>
         bind (fit_channel fit biomass_df t (default x0 default_x0)
                 (default xmin default_xmin) wv)
              (fun r => ret (dict_set wv r acc))) [] = inr fit_results /\
    (given out_dir = true ->
     snd (get_growth_rates fit fs biomass_df wavelengths x0 xmin out_dir w)
     = w ++ written (default out_dir EmptyString) t fit_results).
Proof.
  rewrite get_growth_rates_unfold.
  destruct (column biomass_df "time") as [e | t]; [discriminate |].
  match goal with
  | |- context [for_each ?ws ?f ?s] => destruct (for_each ws f s) as [e | res] eqn:E
  end; [discriminate |].
  destruct (given out_dir).
  - destruct (attempt fs _ w) as [[e | []] w'] eqn:Ea; simpl; intros H;
      [discriminate |].
    injection H as <-. exists t. split; [reflexivity |]. split; [exact E |].
    intros _.
    pose proof (attempt_inr fs (written (default out_dir EmptyString) t res) w tt) as Hw.
    rewrite Ea in Hw. simpl in Hw. apply Hw. reflexivity.
  - simpl. intros H. injection H as <-. exists t.
    split; [reflexivity |]. split; [exact E | discriminate].
Qed.

(** C2, as the code has it: the loop has no handler.  The first channel
    that raises (a requested channel missing from the frame, an
    exception of the optimiser) ends the call with its exception: no
    result map is returned, later channels are not fitted, nothing is
    written.  When every requested channel is fitted the map holds the
    result of each of them, and it is returned unless a write of the
    report block raises: that exception then ends the call in place of
    the map. *)
Theorem get_growth_rates_first_exception_ends_call (fit : optimiser)
    (fs : file_system) (biomass_df : dict (list R)) (t : list R)
    (wavelengths : option (list string)) (x0 xmin : option (list R))
    (out_dir : option string) (w : list event) :
  column biomass_df "time" = inr t ->
  let channel :=
    fit_channel fit biomass_df t (default x0 default_x0) (default xmin default_xmin) in
  (forall pre wv post e,
      default wavelengths default_wavelengths = pre ++ wv :: post ->
      (forall v, In v pre -> exists r, channel v = inr r) ->
      channel wv = inl e ->
      get_growth_rates fit fs biomass_df wavelengths x0 xmin out_dir w = (inl e, w))
  /\
  ((forall v, In v (default wavelengths default_wavelengths) ->
              exists r, channel v = inr r) ->
   exists fit_results,
     (forall v r, In v (default wavelengths default_wavelengths) ->
                  channel v = inr r -> dict_get v fit_results = Some r) /\
     get_growth_rates fit fs biomass_df wavelengths x0 xmin out_dir w =
     if given out_dir
     then match attempt fs (written (default out_dir EmptyString) t fit_results) w with
          | (inr _, w') => (inr fit_results, w')
          | (inl e, w') => (inl e, w')
          end
     else (inr fit_results, w)).
Proof.
  intros Ht channel. split.
  - intros pre wv post e Hws Hpre Hwv.
    rewrite get_growth_rates_unfold, Ht, Hws.
    fold channel.
    rewrite (turns_first_failure channel pre post wv e [] Hpre Hwv).
    reflexivity.
  - intros Hall.
    destruct (turns_all channel _ [] Hall) as [res [Hres [Hin _]]].
    exists res. split; [exact Hin |].
    rewrite get_growth_rates_unfold, Ht.
    fold channel. rewrite Hres. reflexivity.
Qed.

Lemma Rmax_0_2_nonzero : Rmax 0 2 <> 0.
Proof. rewrite Rmax_right by lra. lra. Qed.

Lemma growth_curve_fit_channel :
  fit_channel no_step_fit growth_curve growth_times near_x0 default_xmin "800"
  = inr growth_curve_fit.
Proof.
  unfold fit_channel, growth_curve, near_x0, default_xmin. simpl.
  rewrite fit_gompertz_params.
  apply no_step_fit_gompertz. exact Rmax_0_2_nonzero.
Qed.

Lemma growth_curve_missing_channel (fit : optimiser) (t x0 xmin : list R) :
  fit_channel fit growth_curve t x0 xmin "999" = inl (ColumnNotFoundError "999").
Proof. reflexivity. Qed.

Lemma get_growth_rates_first_exception_ends_call_witness :
  get_growth_rates no_step_fit writable growth_curve (Some ["800"; "999"]%string)
    (Some near_x0) None (Some "."%string) []
  = (inl (ColumnNotFoundError "999"), []).
Proof.
  apply (proj1 (get_growth_rates_first_exception_ends_call no_step_fit writable
                  growth_curve growth_times (Some ["800"; "999"]%string)
                  (Some near_x0) None (Some "."%string) [] eq_refl)
           ["800"%string] "999"%string [] (ColumnNotFoundError "999")).
  - reflexivity.
  - intros v [<- | []]. exists growth_curve_fit. exact growth_curve_fit_channel.
  - apply growth_curve_missing_channel.
Defined.

(** C2, as the claim states it, fails.  On the frame [growth_curve],
    which has the channel "800" and no channel "999", a call for both
    returns no map, whatever the optimiser, the file system and the
    other arguments: also when "800" is fitted, as it is by the
    stand-in optimiser from the guess [near_x0]. *)
Lemma get_growth_rates_missing_channel_aborts :
  fit_channel no_step_fit growth_curve growth_times near_x0 default_xmin "800"
  = inr growth_curve_fit /\
  forall (fit : optimiser) (fs : file_system) (x0 xmin : option (list R))
         (out_dir : option string) (w : list event),
    ~ (exists fit_results,
         fst (get_growth_rates fit fs growth_curve (Some ["800"; "999"]%string)
                x0 xmin out_dir w)
         = inr fit_results).
Proof.
  split; [exact growth_curve_fit_channel |].
  intros fit fs x0 xmin out_dir w [res H].
  apply get_growth_rates_inr in H as [t [_ [Hloop _]]].
  destruct (turns_inr _ _ _ _ Hloop "999"%string) as [r Hr].
  - right. left. reflexivity.
  - rewrite growth_curve_missing_channel in Hr. discriminate.
Qed.

(** C5, as the code has it: [get_growth_rates] writes nothing when no
    output directory is given (None or the empty string) and nothing
    when the time column or a channel raises; given a directory, it
    performs the persistence itself, after the fits: it attempts, in
    order, to open the workbook best_fit.xlsx, to write for each fitted
    channel a text report and a workbook sheet, and to close the
    workbook.  The first write that raises ends the call; what was
    written before stays written. *)
Theorem get_growth_rates_writes (fit : optimiser) (fs : file_system)
    (biomass_df : dict (list R))
    (wavelengths : option (list string)) (x0 xmin : option (list R))
    (out_dir : option string) (w : list event) :
  snd (get_growth_rates fit fs biomass_df wavelengths x0 xmin out_dir w) =
  match column biomass_df "time" with
  | inr t =>
      match fit_channels fit biomass_df t (default wavelengths default_wavelengths)
              (default x0 default_x0) (default xmin default_xmin) with
      | inr fit_results =>
          if given out_dir
          then snd (attempt fs (written (default out_dir EmptyString) t fit_results) w)
          else w
      | inl _ => w
      end
  | inl _ => w
  end /\
  (forall events,
      (exists n, snd (attempt fs events w) = w ++ firstn n events) /\
      (fst (attempt fs events w) = inr tt ->
       snd (attempt fs events w) = w ++ events)).
Proof.
  split.
  - rewrite get_growth_rates_unfold.
    destruct (column biomass_df "time") as [e | t]; [reflexivity |].
    rewrite fit_channels_turns.
    match goal with |- context [for_each ?ws ?f ?s] => destruct (for_each ws f s) as [e | res] end;
      [reflexivity |].
    destruct (given out_dir); [| reflexivity].
    destruct (attempt fs _ w) as [[e | []] w']; reflexivity.
  - intros events. split; [apply attempt_prefix | apply attempt_inr].
Qed.

(** C5, as the claim states it, fails: with the current directory as
    output directory and a file system that takes the writes, every
    optimiser that fits the channel "800" of the frame [growth_curve]
    (the stand-in does) makes the call itself write the report and the
    workbook. *)
Lemma get_growth_rates_writes_report :
  fit_channel no_step_fit growth_curve growth_times near_x0 default_xmin "800"
  = inr growth_curve_fit /\
  forall (fit : optimiser) (r : ModelResult),
    fit_channel fit growth_curve growth_times near_x0 default_xmin "800" = inr r ->
    snd (get_growth_rates fit writable growth_curve None (Some near_x0) None
           (Some "."%string) [])
    = [OpenWorkbook "./best_fit.xlsx";
       WriteText "./lmfit_800_report" (fit_report r);
       WriteSheet "./best_fit.xlsx" "800"
         {| bf_time := growth_times;
            bf_best_fit := best_fit r;
            bf_uncertainty := eval_uncertainty r (9545 / 10000) growth_times |};
       CloseWorkbook "./best_fit.xlsx"].
Proof.
  split; [exact growth_curve_fit_channel |].
  intros fit r Hr.
  rewrite get_growth_rates_unfold.
  change (column growth_curve "time") with (@inr exn (list R) growth_times).
  cbv beta iota. cbn [default for_each default_wavelengths].
  rewrite Hr. cbn [bind ret dict_set given].
  rewrite attempt_writable. reflexivity.
Qed.

End GetGrowthRatesFacts.

(* ================================================================== *)
(** * Sorting, grouping and the error monad                            *)
(* ================================================================== *)

Section SortFacts.
Context {Row : Type}.
Variable key : Row -> Z.

Let le (a b : Row) : Prop := (key a <= key b)%Z.

Lemma insert_perm (r : Row) (df : list Row) :
  Permutation (pl.insert key r df) (r :: df).
Proof.
  induction df as [| r' df IH]; simpl.
  - apply Permutation_refl.
  - destruct (key r <=? key r')%Z.
    + apply Permutation_refl.
    + apply perm_trans with (r' :: r :: df).
      * apply perm_skip. exact IH.
      * apply perm_swap.
Qed.

Lemma sort_perm (df : list Row) : Permutation (pl.sort key df) df.
Proof.
  induction df as [| r df IH]; simpl.
  - apply perm_nil.
  - apply perm_trans with (r :: pl.sort key df).
    + apply insert_perm.
    + apply perm_skip. exact IH.
Qed.

Lemma insert_sorted (r : Row) (df : list Row) :
  StronglySorted le df -> StronglySorted le (pl.insert key r df).
Proof.
  induction 1 as [| r' df Hs IH Hall]; simpl.
  - constructor; constructor.
  - destruct (key r <=? key r')%Z eqn:E.
    + apply Z.leb_le in E. constructor.
      * constructor; assumption.
      * constructor; [exact E |].
        apply Forall_impl with (P := le r'); [| exact Hall].
        intros a Ha. unfold le in *. lia.
    + apply Z.leb_gt in E. constructor; [exact IH |].
      apply (Permutation_Forall (Permutation_sym (insert_perm r df))).
      constructor; [unfold le; lia | exact Hall].
Qed.

Lemma sort_sorted (df : list Row) : StronglySorted le (pl.sort key df).
Proof.
  induction df as [| r df IH]; simpl.
  - constructor.
  - apply insert_sorted. exact IH.
Qed.

Lemma sort_nil_inv (df : list Row) : pl.sort key df = [] -> df = [].
Proof.
  intros H. pose proof (sort_perm df) as P. rewrite H in P.
  apply Permutation_nil. exact P.
Qed.

(** The first row of a sorted frame carries the least key of the frame. *)
Lemma sort_head_least (df : list Row) (r : Row) (rest : list Row) :
  pl.sort key df = r :: rest ->
  In r df /\ forall x, In x df -> (key r <= key x)%Z.
Proof.
  intros H. pose proof (sort_perm df) as P. pose proof (sort_sorted df) as S.
  rewrite H in P, S. split.
  - apply (Permutation_in _ P). left. reflexivity.
  - intros x Hx. apply (Permutation_in _ (Permutation_sym P)) in Hx.
    destruct Hx as [<- | Hx].
    + lia.
    + inversion S as [| ? ? _ Hall]; subst.
      rewrite Forall_forall in Hall. apply Hall. exact Hx.
Qed.

End SortFacts.

Section MonadFacts.

Lemma traverse_inr {A B : Type} (f : A -> result B) (xs : list A) (ys : list B) :
  traverse f xs = inr ys -> Forall2 (fun x y => f x = inr y) xs ys.
Proof.
  revert ys. induction xs as [| x xs IH]; intros ys H; simpl in H.
  - injection H as <-. constructor.
  - apply bind_inr in H as [y [Hy H]].
    apply bind_inr in H as [ys' [Hys H]].
    injection H as <-. constructor; [exact Hy | apply IH; exact Hys].
Qed.

Lemma concat_inr {Row : Type} (frames : list (list Row)) (df : list Row) :
  pl.concat frames = inr df -> df = List.concat frames.
Proof.
  destruct frames; simpl; intros H; [discriminate | injection H as <-; reflexivity].
Qed.

End MonadFacts.

(* ================================================================== *)
(** * load_tecan                                                       *)
(* ================================================================== *)

Section TecanFacts.
Import pl biomass notions.
Local Open Scope Z_scope.

Variable open_workbook : string -> result (dict tecan_sheet).

Lemma Forall2_In_r {A B : Type} (P : A -> B -> Prop) (xs : list A) (ys : list B) :
  Forall2 P xs ys -> forall y, In y ys -> exists x, In x xs /\ P x y.
Proof.
  induction 1 as [| x y xs ys Hxy _ IH]; intros y' Hy'.
  - contradiction.
  - destruct Hy' as [<- | Hy'].
    + exists x. split; [left; reflexivity | exact Hxy].
    + destruct (IH _ Hy') as [x' [Hx' HP]]. exists x'. split; [right |]; assumption.
Qed.

Lemma Forall2_In_l {A B : Type} (P : A -> B -> Prop) (xs : list A) (ys : list B) :
  Forall2 P xs ys -> forall x, In x xs -> exists y, In y ys /\ P x y.
Proof.
  induction 1 as [| x y xs ys Hxy _ IH]; intros x' Hx'.
  - contradiction.
  - destruct Hx' as [<- | Hx'].
    + exists y. split; [left; reflexivity | exact Hxy].
    + destruct (IH _ Hx') as [y' [Hy' HP]]. exists y'. split; [right |]; assumption.
Qed.

(** The rows of an inner join are the pairs with equal keys. *)
Lemma In_join {L R' Out : Type} (lkey : L -> string) (rkey : R' -> string)
    (combine : L -> R' -> Out) (left : list L) (right : list R') (x : Out) :
  In x (pl.join lkey rkey combine left right) <->
  exists l r, In l left /\ In r right /\ rkey r = lkey l /\ x = combine l r.
Proof.
  unfold pl.join. rewrite in_flat_map. split.
  - intros [l [Hl Hx]]. apply in_map_iff in Hx as [r [<- Hr]].
    apply filter_In in Hr as [Hr E]. apply String.eqb_eq in E.
    exists l, r. repeat split; assumption.
  - intros [l [r [Hl [Hr [E ->]]]]]. exists l. split; [exact Hl |].
    apply in_map. apply filter_In. split; [exact Hr |].
    apply String.eqb_eq. exact E.
Qed.

Lemma load_sheet_rows (n_wells : option Z) (col_letters : option string)
    (keys_options : option read_options) (sh : tecan_sheet) (rows : list tecan_row) :
  load_sheet (default n_wells 4) (default col_letters "A:AE"%string) keys_options sh
  = inr rows <->
  exists seconds,
    read_date sh date_options = Some seconds /\
    rows = map (fun rk => tecan_row_of (fst rk) (snd rk) seconds)
               (keyed n_wells col_letters keys_options sh).
Proof.
  unfold load_sheet, keyed, absorbance_options.
  fold date_options.
  destruct (read_date sh date_options) as [seconds |]; simpl.
  - split.
    + intros H. injection H as <-. exists seconds. split; reflexivity.
    + intros [s' [E ->]]. injection E as <-. reflexivity.
  - split; [discriminate | intros [s' [E _]]; discriminate].
Qed.

(** Where the rows of the frame of one file come from. *)
Lemma load_file_rows (n_wells : option Z) (col_letters : option string)
    (keys_options : option read_options) (f : string) (df : list tecan_row) :
  load_file open_workbook (default n_wells 4) (default col_letters "A:AE"%string)
    keys_options f = inr df ->
  forall x, In x df <->
    exists sheets sh seconds rk,
      open_workbook f = inr sheets /\ In sh (values sheets) /\
      read_date sh date_options = Some seconds /\
      In rk (keyed n_wells col_letters keys_options sh) /\
      x = tecan_row_of (fst rk) (snd rk) seconds.
Proof.
  unfold load_file. intros H.
  apply bind_inr in H as [sheets [Hopen H]].
  apply bind_inr in H as [frames [Htrav H]].
  apply concat_inr in H. subst df.
  apply traverse_inr in Htrav.
  intros x. rewrite in_concat. split.
  - intros [rows [Hrows Hx]].
    destruct (Forall2_In_r _ _ _ Htrav _ Hrows) as [sh [Hsh Hload]].
    apply load_sheet_rows in Hload as [seconds [Hdate ->]].
    apply in_map_iff in Hx as [rk [<- Hrk]].
    exists sheets, sh, seconds, rk. repeat split; assumption.
  - intros [sheets' [sh [seconds [rk [Hopen' [Hsh [Hdate [Hrk ->]]]]]]]].
    assert (sheets' = sheets) as -> by congruence.
    destruct (Forall2_In_l _ _ _ Htrav _ Hsh) as [rows [Hrows Hload]].
    apply load_sheet_rows in Hload as [seconds' [Hdate' ->]].
    assert (seconds' = seconds) as -> by congruence.
    exists (map (fun rk0 => tecan_row_of (fst rk0) (snd rk0) seconds)
              (keyed n_wells col_letters keys_options sh)).
    split; [exact Hrows |]. apply in_map_iff. exists rk. split; [reflexivity | exact Hrk].
Qed.

(** Where the rows of the pooled frame come from. *)
Lemma pooled_rows (files : list string) (n_wells : option Z)
    (col_letters : option string) (keys_options : option read_options)
    (rows : list tecan_row) :
  pooled open_workbook files n_wells col_letters keys_options = inr rows ->
  forall x, In x rows <->
    exists f sheets sh seconds rk,
      In f files /\ open_workbook f = inr sheets /\ In sh (values sheets) /\
      read_date sh date_options = Some seconds /\
      In rk (keyed n_wells col_letters keys_options sh) /\
      x = tecan_row_of (fst rk) (snd rk) seconds.
Proof.
  unfold pooled. intros H.
  apply bind_inr in H as [files_dict [Hloop H]].
  apply concat_inr in H. subst rows.
  intros x. rewrite in_concat. split.
  - intros [df [Hdf Hx]].
    unfold values in Hdf. apply in_map_iff in Hdf as [[f df'] [E Hentry]].
    simpl in E. subst df'.
    destruct (turns_entries _ _ _ _ Hloop _ _ Hentry) as [[] | [Hf Hload]].
    apply (load_file_rows _ _ _ _ _ Hload) in Hx
      as [sheets [sh [seconds [rk [Hopen [Hsh [Hdate [Hrk ->]]]]]]]].
    exists f, sheets, sh, seconds, rk. repeat split; assumption.
  - intros [f [sheets [sh [seconds [rk [Hf [Hopen [Hsh [Hdate [Hrk ->]]]]]]]]]].
    destruct (turns_have _ _ _ _ Hloop _ Hf) as [df [Hload Hentry]].
    exists df. split.
    + unfold values. apply in_map_iff. exists (f, df). split; [reflexivity | exact Hentry].
    + apply (load_file_rows _ _ _ _ _ Hload).
      exists sheets, sh, seconds, rk. repeat split; assumption.
Qed.

(** Every timestamp of the pooled frame is a whole number of seconds. *)
Lemma pooled_whole_seconds (files : list string) (n_wells : option Z)
    (col_letters : option string) (keys_options : option read_options)
    (rows : list tecan_row) :
  pooled open_workbook files n_wells col_letters keys_options = inr rows ->
  forall x, In x rows -> exists seconds, date x = seconds * 1000000.
Proof.
  intros H x Hx. apply (pooled_rows _ _ _ _ _ H) in Hx
    as [f [sheets [sh [seconds [rk [_ [_ [_ [_ [_ ->]]]]]]]]]].
  exists seconds. reflexivity.
Qed.

Lemma minus_item_elapsed_days (d0 : Z) (df : list tecan_row) :
  map (fun r => with_time (row r) (IZR (total_seconds (time r)) / (3600 * 24))%R)
      (minus_item date (Some d0) df)
  = map (elapsed_days d0) df.
Proof. unfold minus_item. rewrite map_map. reflexivity. Qed.

(** [load_tecan] is the pooled frame, sorted, with [elapsed_days] from
    the timestamp of its first row. *)
Lemma load_tecan_pooled (files : list string) (n_wells : option Z)
    (col_letters : option string) (keys_options : option read_options) :
  load_tecan open_workbook files n_wells col_letters keys_options =
  bind (pooled open_workbook files n_wells col_letters keys_options)
    (fun rows =>
       ret match pl.sort date rows with
           | [] => []
           | first :: rest => map (elapsed_days (date first)) (first :: rest)
           end).
Proof.
  unfold load_tecan, pooled.
  match goal with |- context [for_each ?ws ?f ?s] => destruct (for_each ws f s) as [e | d] end;
    simpl; [reflexivity |].
  destruct (pl.concat (values d)) as [e | rows]; simpl; [reflexivity |].
  destruct (pl.sort date rows) as [| first rest]; [reflexivity |].
  unfold item0. rewrite minus_item_elapsed_days. reflexivity.
Qed.

(** With at least one pooled row the series starts from the first row of
    the sorted frame. *)
Lemma load_tecan_returns (files : list string) (n_wells : option Z)
    (col_letters : option string) (keys_options : option read_options)
    (rows : list tecan_row) :
  pooled open_workbook files n_wells col_letters keys_options = inr rows ->
  rows <> [] ->
  exists first rest,
    pl.sort date rows = first :: rest /\
    load_tecan open_workbook files n_wells col_letters keys_options
    = inr (map (elapsed_days (date first)) (first :: rest)).
Proof.
  intros Hpool Hne. rewrite load_tecan_pooled, Hpool. simpl.
  destruct (pl.sort date rows) as [| first rest] eqn:E.
  - apply sort_nil_inv in E. contradiction.
  - exists first, rest. split; reflexivity.
Qed.

(** A series [load_tecan] returns is the pooled frame, sorted, with
    [elapsed_days] from the timestamp of the first row, if there is one. *)
Lemma load_tecan_inr (files : list string) (n_wells : option Z)
    (col_letters : option string) (keys_options : option read_options)
    (od_df : list (timed tecan_row R)) :
  load_tecan open_workbook files n_wells col_letters keys_options = inr od_df ->
  exists rows d0,
    pooled open_workbook files n_wells col_letters keys_options = inr rows /\
    od_df = map (elapsed_days d0) (pl.sort date rows) /\
    (forall first rest, pl.sort date rows = first :: rest -> d0 = date first).
Proof.
  intros H. rewrite load_tecan_pooled in H.
  apply bind_inr in H as [rows [Hpool H]]. injection H as <-.
  destruct (pl.sort date rows) as [| first rest] eqn:E.
  - exists rows, 0. rewrite E. repeat split; [exact Hpool | discriminate].
  - exists rows, (date first). rewrite E. repeat split; [exact Hpool |].
    intros first' rest' H. injection H as <- _. reflexivity.
Qed.

End TecanFacts.

Section TecanProperties.
Import pl biomass notions.
Local Open Scope Z_scope.

Lemma StronglySorted_map_mono {A B : Type} (P : A -> A -> Prop) (Q : B -> B -> Prop)
    (f : A -> B) (l : list A) :
  (forall a b, P a b -> Q (f a) (f b)) ->
  StronglySorted P l -> StronglySorted Q (map f l).
Proof.
  intros Hmono. induction 1 as [| a l _ IH Hall]; simpl.
  - constructor.
  - constructor; [exact IH |].
    rewrite Forall_map. apply Forall_impl with (P := P a); [| exact Hall].
    intros b. apply Hmono.
Qed.

Lemma elapsed_days_mono (d0 : Z) (a b : tecan_row) :
  date a <= date b -> (time (elapsed_days d0 a) <= time (elapsed_days d0 b))%R.
Proof.
  intros H. unfold elapsed_days, total_seconds. simpl.
  unfold Rdiv. apply Rmult_le_compat_r.
  - left. apply Rinv_0_lt_compat. lra.
  - apply IZR_le. apply Z.quot_le_mono; lia.
Qed.

Lemma elapsed_days_origin (x : tecan_row) : time (elapsed_days (date x) x) = 0%R.
Proof.
  unfold elapsed_days, total_seconds. simpl.
  rewrite Z.sub_diag. change (Z.quot 0 1000000) with 0.
  unfold Rdiv. apply Rmult_0_l.
Qed.

Lemma elapsed_days_seconds (s0 seconds : Z) (x : tecan_row) :
  date x - s0 * 1000000 = seconds * 1000000 ->
  time (elapsed_days (s0 * 1000000) x) = (IZR seconds / 86400)%R.
Proof.
  intros H. unfold elapsed_days, total_seconds. simpl.
  rewrite H, Z.quot_mul by lia.
  replace (3600 * 24)%R with 86400%R by lra. reflexivity.
Qed.

Lemma map_row_elapsed_days (d0 : Z) (l : list tecan_row) :
  map row (map (elapsed_days d0) l) = l.
Proof. rewrite map_map. simpl. apply map_id. Qed.

(** C3: whenever the batches pooled by [load_tecan] hold at least one
    row, [load_tecan] returns the rows sorted, the elapsed time of the
    first row is 0, and the elapsed time never decreases along the
    series. *)
Theorem load_tecan_time_starts_at_zero
    (open_workbook : string -> result (dict tecan_sheet))
    (files : list string) (n_wells : option Z) (col_letters : option string)
    (keys_options : option read_options) (rows : list tecan_row) :
  pooled open_workbook files n_wells col_letters keys_options = inr rows ->
  rows <> [] ->
  exists first rest,
    load_tecan open_workbook files n_wells col_letters keys_options
    = inr (first :: rest) /\
    time first = 0%R /\
    StronglySorted (fun a b => (time a <= time b)%R) (first :: rest) /\
    Permutation (map row (first :: rest)) rows.
Proof.
  intros Hpool Hne.
  destruct (load_tecan_returns _ _ _ _ _ _ Hpool Hne) as [x [xs [Hsort Hload]]].
  exists (elapsed_days (date x) x), (map (elapsed_days (date x)) xs).
  split; [exact Hload |]. split; [apply elapsed_days_origin |]. split.
  - change (StronglySorted (fun a b => (time a <= time b)%R)
              (map (elapsed_days (date x)) (x :: xs))).
    apply StronglySorted_map_mono with (P := fun a b => date a <= date b).
    + intros a b. apply elapsed_days_mono.
    + rewrite <- Hsort. apply sort_sorted.
  - change (Permutation (map row (map (elapsed_days (date x)) (x :: xs))) rows).
    rewrite map_row_elapsed_days, <- Hsort. apply sort_perm.
Qed.

Lemma one_workbook_pooled :
  pooled one_workbook ["od.xlsx"%string] None None None = inr one_workbook_rows.
Proof. reflexivity. Qed.

Lemma load_tecan_time_starts_at_zero_witness :
  exists first rest,
    load_tecan one_workbook ["od.xlsx"%string] None None None = inr (first :: rest) /\
    time first = 0%R /\
    StronglySorted (fun a b => (time a <= time b)%R) (first :: rest) /\
    Permutation (map row (first :: rest)) one_workbook_rows.
Proof.
  apply (load_tecan_time_starts_at_zero one_workbook ["od.xlsx"%string]
           None None None one_workbook_rows).
  - reflexivity.
  - discriminate.
Defined.

(** The example workbook: the sheet read first in time comes first, a day
    apart is 1. *)
Lemma one_workbook_series :
  exists od_df,
    load_tecan one_workbook ["od.xlsx"%string] None None None = inr od_df /\
    map row od_df
    = [ tecan_row_of well_A1 [] 0; tecan_row_of well_B1 [] 0;
        tecan_row_of well_A1 [] 86400; tecan_row_of well_B1 [] 86400 ] /\
    map time od_df = [0; 0; 1; 1]%R.
Proof.
  eexists. split; [reflexivity |]. split; [reflexivity |].
  unfold elapsed_days, total_seconds. simpl.
  change (Z.quot 0 1000000) with 0.
  change (Z.quot 86400000000 1000000) with 86400.
  replace (0 / (3600 * 24))%R with 0%R by lra.
  replace (86400 / (3600 * 24))%R with 1%R by lra.
  reflexivity.
Qed.

(** [files_dict] is keyed by the path: a file listed twice is pooled
    once. *)
Lemma load_tecan_file_listed_twice :
  load_tecan one_workbook ["od.xlsx"; "od.xlsx"]%string None None None
  = load_tecan one_workbook ["od.xlsx"%string] None None None.
Proof. reflexivity. Qed.

(** C8: every row of the series [load_tecan] returns carries as elapsed
    time its timestamp minus the earliest timestamp of the pooled
    batches, a whole number of seconds, divided by 86400: fractional
    days. *)
Theorem load_tecan_time_in_days
    (open_workbook : string -> result (dict tecan_sheet))
    (files : list string) (n_wells : option Z) (col_letters : option string)
    (keys_options : option read_options) (rows : list tecan_row) :
  pooled open_workbook files n_wells col_letters keys_options = inr rows ->
  rows <> [] ->
  exists od_df earliest,
    load_tecan open_workbook files n_wells col_letters keys_options = inr od_df /\
    Permutation (map row od_df) rows /\
    In earliest (map date rows) /\
    (forall x, In x rows -> earliest <= date x) /\
    (forall r, In r od_df ->
       exists seconds,
         date (row r) - earliest = seconds * 1000000 /\
         time r = (IZR seconds / 86400)%R).
Proof.
  intros Hpool Hne.
  destruct (load_tecan_returns _ _ _ _ _ _ Hpool Hne) as [x [xs [Hsort Hload]]].
  destruct (sort_head_least date _ _ _ Hsort) as [Hx Hleast].
  exists (map (elapsed_days (date x)) (x :: xs)), (date x).
  split; [exact Hload |]. split; [| split; [| split]].
  - rewrite map_row_elapsed_days, <- Hsort. apply sort_perm.
  - apply in_map. exact Hx.
  - exact Hleast.
  - intros r Hr. apply in_map_iff in Hr as [y [<- Hy]].
    rewrite <- Hsort in Hy. apply (Permutation_in _ (sort_perm date rows)) in Hy.
    destruct (pooled_whole_seconds _ _ _ _ _ _ Hpool _ Hx) as [s0 Hs0].
    destruct (pooled_whole_seconds _ _ _ _ _ _ Hpool _ Hy) as [s Hs].
    exists (s - s0). rewrite Hs0. simpl (row _). split.
    + rewrite Hs. ring.
    + apply elapsed_days_seconds. rewrite Hs. ring.
Qed.

Lemma load_tecan_time_in_days_witness :
  exists od_df earliest,
    load_tecan one_workbook ["od.xlsx"%string] None None None = inr od_df /\
    Permutation (map row od_df) one_workbook_rows /\
    In earliest (map date one_workbook_rows) /\
    (forall x, In x one_workbook_rows -> earliest <= date x) /\
    (forall r, In r od_df ->
       exists seconds,
         date (row r) - earliest = seconds * 1000000 /\
         time r = (IZR seconds / 86400)%R).
Proof.
  apply (load_tecan_time_in_days one_workbook ["od.xlsx"%string]
           None None None one_workbook_rows).
  - reflexivity.
  - discriminate.
Defined.

(** C10: with the key join requested, the series [load_tecan] returns
    holds exactly the pairs of a reading and a key row of the same sheet
    with equal wells (an inner join on the well): a reading whose well
    has no key row in its sheet contributes no row. *)
Theorem load_tecan_join_is_inner
    (open_workbook : string -> result (dict tecan_sheet))
    (files : list string) (n_wells : option Z) (col_letters : option string)
    (keys_options : option read_options)
    (od_df : list (timed tecan_row R)) :
  requested keys_options = true ->
  load_tecan open_workbook files n_wells col_letters keys_options = inr od_df ->
  forall x : tecan_row,
    In x (map row od_df) <->
    exists f sheets sh seconds r k,
      In f files /\ open_workbook f = inr sheets /\ In sh (values sheets) /\
      read_date sh date_options = Some seconds /\
      In r (read_absorbance sh (absorbance_options n_wells col_letters)) /\
      In k (read_keys sh (default keys_options [])) /\
      key_well k = well r /\
      x = tecan_row_of r (sample k) seconds.
Proof.
  intros Hreq Hload x.
  apply load_tecan_inr in Hload as [rows [d0 [Hpool [-> _]]]].
  rewrite map_row_elapsed_days.
  assert (Hsorted : In x (pl.sort date rows) <-> In x rows).
  { split; apply Permutation_in;
      [apply sort_perm | apply Permutation_sym, sort_perm]. }
  rewrite Hsorted, (pooled_rows _ _ _ _ _ _ Hpool x).
  unfold keyed. rewrite Hreq. split.
  - intros [f [sheets [sh [seconds [rk [Hf [Hopen [Hsh [Hdate [Hrk ->]]]]]]]]]].
    apply In_join in Hrk as [r [k [Hr [Hk [E ->]]]]].
    exists f, sheets, sh, seconds, r, k. repeat split; assumption.
  - intros [f [sheets [sh [seconds [r [k [Hf [Hopen [Hsh [Hdate [Hr [Hk [E ->]]]]]]]]]]]]].
    exists f, sheets, sh, seconds, (r, sample k). repeat split; try assumption.
    apply In_join. exists r, k. repeat split; assumption.
Qed.

(** In the example workbook the key block knows well A1 only: the two
    readings of B1 are gone from the series. *)
Lemma one_workbook_keyed :
  load_tecan one_workbook ["od.xlsx"%string] None None some_keys
  = inr [ elapsed_days 0 (tecan_row_of well_A1 ["blank"%string] 0);
          elapsed_days 0 (tecan_row_of well_A1 ["blank"%string] 86400) ].
Proof. reflexivity. Qed.

Lemma load_tecan_join_is_inner_witness :
  In (tecan_row_of well_A1 ["blank"%string] 0)
     (map row [ elapsed_days 0 (tecan_row_of well_A1 ["blank"%string] 0);
                elapsed_days 0 (tecan_row_of well_A1 ["blank"%string] 86400) ]) <->
  exists f sheets sh seconds r k,
    In f ["od.xlsx"%string] /\ one_workbook f = inr sheets /\ In sh (values sheets) /\
    read_date sh date_options = Some seconds /\
    In r (read_absorbance sh (absorbance_options None None)) /\
    In k (read_keys sh (default some_keys [])) /\
    key_well k = well r /\
    tecan_row_of well_A1 ["blank"%string] 0 = tecan_row_of r (sample k) seconds.
Proof.
  apply (load_tecan_join_is_inner one_workbook ["od.xlsx"%string] None None some_keys
           [ elapsed_days 0 (tecan_row_of well_A1 ["blank"%string] 0);
             elapsed_days 0 (tecan_row_of well_A1 ["blank"%string] 86400) ]).
  - reflexivity.
  - exact one_workbook_keyed.
Defined.

End TecanProperties.

(* ================================================================== *)
(** * get_dw_df                                                        *)
(* ================================================================== *)

Section DryWeightFacts.
Import pl biomass notions.
Local Open Scope Z_scope.

Variable read_excel : string -> option (list string) -> result (dict (list dw_sample)).

Lemma group_by_groups {Row : Type} (key : Row -> Z) (df : list Row) :
  pl.group_by key df =
  map (fun k => (k, filter (fun r => key r =? k) df)) (nodup Z.eq_dec (map key df)).
Proof. reflexivity. Qed.

(** The frame [get_dw_df] sorts: one [summary] per timestamp of the
    samples kept. *)
Lemma aggregated_groups (raw : list dw_sample) :
  map (fun g =>
         {| s_date := fst g;
            s_Biomass := pl.mean (map Biomass (snd g));
            biomass.std := pl.std (map Biomass (snd g)) |})
      (pl.group_by dw_date (vss raw))
  = map (summary raw) (nodup Z.eq_dec (map dw_date (vss raw))).
Proof. rewrite group_by_groups, map_map. reflexivity. Qed.

Lemma summary_dates (raw : list dw_sample) (ds : list Z) :
  map s_date (map (summary raw) ds) = ds.
Proof. rewrite map_map. simpl. apply map_id. Qed.

Lemma StronglySorted_le_NoDup_lt (l : list Z) :
  StronglySorted Z.le l -> NoDup l -> StronglySorted Z.lt l.
Proof.
  induction 1 as [| a l _ IH Hall]; intros Hnd.
  - constructor.
  - inversion Hnd as [| ? ? Hnotin Hnd']; subst.
    constructor; [apply IH; exact Hnd' |].
    rewrite Forall_forall in *. intros b Hb.
    specialize (Hall b Hb).
    assert (a <> b) by (intros ->; contradiction). lia.
Qed.

Lemma get_dw_df_unfold (file : string) (raw : list dw_sample) :
  load_excel read_excel file (Some dw_columns) = inr raw ->
  get_dw_df read_excel file =
  let dw_df :=
    pl.sort s_date (map (summary raw) (nodup Z.eq_dec (map dw_date (vss raw)))) in
  inr (minus_item s_date (item0 s_date dw_df) dw_df).
Proof.
  intros Hload. unfold get_dw_df. fold dw_columns. rewrite Hload. simpl.
  fold (vss raw). rewrite aggregated_groups. reflexivity.
Qed.

(** With a sample kept, [get_dw_df] returns the sorted summaries, timed
    from the first of them. *)
Lemma get_dw_df_returns (file : string) (raw : list dw_sample) :
  load_excel read_excel file (Some dw_columns) = inr raw ->
  vss raw <> [] ->
  exists first rest,
    pl.sort s_date (map (summary raw) (nodup Z.eq_dec (map dw_date (vss raw))))
    = first :: rest /\
    get_dw_df read_excel file
    = inr (map (fun r => with_time r (s_date r - s_date first)) (first :: rest)).
Proof.
  intros Hload Hne. rewrite (get_dw_df_unfold _ _ Hload). cbv zeta.
  destruct (pl.sort s_date _) as [| first rest] eqn:E.
  - apply sort_nil_inv in E. apply map_eq_nil in E.
    exfalso. destruct (vss raw) as [| x l]; [contradiction |].
    assert (Hin : In (dw_date x) (nodup Z.eq_dec (map dw_date (x :: l)))).
    { apply nodup_In. left. reflexivity. }
    rewrite E in Hin. contradiction.
  - exists first, rest. split; reflexivity.
Qed.

(** The rows of the sorted summaries. *)
Lemma sorted_summaries (raw : list dw_sample) (x : dw_summary) :
  In x (pl.sort s_date (map (summary raw) (nodup Z.eq_dec (map dw_date (vss raw)))))
  <-> In (s_date x) (map dw_date (vss raw)) /\ x = summary raw (s_date x).
Proof.
  split.
  - intros H. apply (Permutation_in _ (sort_perm s_date _)) in H.
    apply in_map_iff in H as [d [<- Hd]]. apply nodup_In in Hd.
    split; [exact Hd | reflexivity].
  - intros [Hd ->]. apply (Permutation_in _ (Permutation_sym (sort_perm s_date _))).
    apply in_map. apply nodup_In. exact Hd.
Qed.

Lemma sorted_summaries_ascending (raw : list dw_sample) :
  StronglySorted Z.lt
    (map s_date
       (pl.sort s_date (map (summary raw) (nodup Z.eq_dec (map dw_date (vss raw)))))).
Proof.
  apply StronglySorted_le_NoDup_lt.
  - apply StronglySorted_map_mono with (P := fun a b => s_date a <= s_date b).
    + intros a b H. exact H.
    + apply sort_sorted.
  - apply (Permutation_NoDup
             (l := map s_date (map (summary raw) (nodup Z.eq_dec (map dw_date (vss raw)))))).
    + apply Permutation_map. apply Permutation_sym. apply sort_perm.
    + rewrite summary_dates. apply NoDup_nodup.
Qed.

End DryWeightFacts.

Section DryWeightProperties.
Import pl biomass notions.
Local Open Scope Z_scope.

Lemma timed_summary_dates (d0 : Z) (l : list dw_summary) :
  map (fun r => s_date (row r)) (map (fun r => with_time r (s_date r - d0)) l)
  = map s_date l.
Proof. rewrite map_map. reflexivity. Qed.

(** C7: from the raw dry-weight table [get_dw_df] keeps the samples of
    type VSS, returns one row per timestamp of those samples, in
    ascending order of timestamp, holding the mean and the standard
    deviation of the concentrations measured at that timestamp, and as
    elapsed time the timestamp minus the earliest timestamp of the kept
    samples, as a difference of timestamps (no conversion to days). *)
Theorem get_dw_df_aggregates
    (read_excel : string -> option (list string) -> result (dict (list dw_sample)))
    (file : string) (raw : list dw_sample) :
  load_excel read_excel file (Some dw_columns) = inr raw ->
  vss raw <> [] ->
  exists out earliest,
    get_dw_df read_excel file = inr out /\
    (forall d, In d (map (fun r => s_date (row r)) out) <->
               In d (map dw_date (vss raw))) /\
    StronglySorted Z.lt (map (fun r => s_date (row r)) out) /\
    In earliest (map dw_date (vss raw)) /\
    (forall x, In x (vss raw) -> earliest <= dw_date x) /\
    (forall r, In r out ->
       row r = summary raw (s_date (row r)) /\
       time r = s_date (row r) - earliest).
Proof.
  intros Hload Hne.
  destruct (get_dw_df_returns _ _ _ Hload Hne) as [first [rest [Hsort Hget]]].
  destruct (sort_head_least s_date _ _ _ Hsort) as [Hfirst Hleast].
  exists (map (fun r => with_time r (s_date r - s_date first)) (first :: rest)),
         (s_date first).
  split; [exact Hget |].
  rewrite timed_summary_dates, <- Hsort.
  split; [| split; [| split; [| split]]].
  - intros d. split.
    + intros Hd. apply in_map_iff in Hd as [x [<- Hx]].
      apply sorted_summaries in Hx as [Hx _]. exact Hx.
    + intros Hd. apply in_map_iff. exists (summary raw d). split; [reflexivity |].
      apply sorted_summaries. split; [exact Hd | reflexivity].
  - apply sorted_summaries_ascending.
  - apply in_map_iff in Hfirst as [d [<- Hd]]. apply nodup_In in Hd. exact Hd.
  - intros x Hx.
    apply (Hleast (summary raw (dw_date x))).
    apply in_map. apply nodup_In. apply in_map. exact Hx.
  - intros r Hr. apply in_map_iff in Hr as [x [<- Hx]]. simpl.
    split; [| reflexivity].
    apply sorted_summaries in Hx as [_ Hx]. exact Hx.
Qed.

Lemma dw_workbook_loads :
  load_excel dw_workbook "dw.xlsx" (Some dw_columns) = inr dw_rows.
Proof. reflexivity. Qed.

Lemma get_dw_df_aggregates_witness :
  exists out earliest,
    get_dw_df dw_workbook "dw.xlsx" = inr out /\
    (forall d, In d (map (fun r => s_date (row r)) out) <->
               In d (map dw_date (vss dw_rows))) /\
    StronglySorted Z.lt (map (fun r => s_date (row r)) out) /\
    In earliest (map dw_date (vss dw_rows)) /\
    (forall x, In x (vss dw_rows) -> earliest <= dw_date x) /\
    (forall r, In r out ->
       row r = summary dw_rows (s_date (row r)) /\
       time r = s_date (row r) - earliest).
Proof.
  apply (get_dw_df_aggregates dw_workbook "dw.xlsx" dw_rows).
  - reflexivity.
  - discriminate.
Defined.

(** What [get_dw_df] returns on the example workbook: the two replicates
    of the first timestamp are aggregated, the TSS sample is left out,
    the single sample of the second timestamp has no deviation. *)
Lemma dw_workbook_frame :
  get_dw_df dw_workbook "dw.xlsx"
  = inr [ with_time {| s_date := 5000000;
                       s_Biomass := pl.mean [1; 3]%R;
                       biomass.std := pl.std [1; 3]%R |} 0;
          with_time {| s_date := 9000000;
                       s_Biomass := pl.mean [2]%R;
                       biomass.std := NaN |} 4000000 ].
Proof. reflexivity. Qed.

Lemma mean_1_3 : pl.mean [1; 3]%R = 2%R.
Proof. unfold pl.mean, pl.sum. simpl. lra. Qed.

Lemma std_1_3 : pl.std [1; 3]%R = Num (sqrt 2).
Proof.
  unfold pl.std. f_equal. f_equal. rewrite mean_1_3.
  unfold pl.sum. simpl. lra.
Qed.

(** C6: a timestamp with exactly one replicate among the kept samples
    has a row in the frame [get_dw_df] returns (the call does not
    raise), and the standard deviation of that row is NaN, not zero. *)
Theorem get_dw_df_single_replicate
    (read_excel : string -> option (list string) -> result (dict (list dw_sample)))
    (file : string) (raw : list dw_sample) (d : Z) (x : R) :
  load_excel read_excel file (Some dw_columns) = inr raw ->
  replicates raw d = [x] ->
  exists out,
    get_dw_df read_excel file = inr out /\
    (exists r, In r out /\ s_date (row r) = d) /\
    (forall r, In r out -> s_date (row r) = d ->
               biomass.std (row r) = NaN /\ biomass.std (row r) <> Num 0).
Proof.
  intros Hload Hone.
  assert (Hd : In d (map dw_date (vss raw))).
  { unfold replicates in Hone.
    destruct (filter (fun r => dw_date r =? d) (vss raw)) as [| s l] eqn:E;
      [discriminate |].
    assert (Hs : In s (filter (fun r => dw_date r =? d) (vss raw)))
      by (rewrite E; left; reflexivity).
    apply filter_In in Hs as [Hs Hsd]. apply Z.eqb_eq in Hsd. subst d.
    apply in_map. exact Hs. }
  assert (Hne : vss raw <> []).
  { intros Hnil. rewrite Hnil in Hd. contradiction. }
  destruct (get_dw_df_returns _ _ _ Hload Hne) as [first [rest [Hsort Hget]]].
  exists (map (fun r => with_time r (s_date r - s_date first)) (first :: rest)).
  split; [exact Hget |]. rewrite <- Hsort. split.
  - exists (with_time (summary raw d) (d - s_date first)). split; [| reflexivity].
    apply (in_map (fun r => with_time r (s_date r - s_date first))).
    apply sorted_summaries. split; [exact Hd | reflexivity].
  - intros r Hr Hrd. apply in_map_iff in Hr as [s [<- Hs]]. simpl in *.
    apply sorted_summaries in Hs as [_ Hs]. rewrite Hs, Hrd. simpl.
    rewrite Hone. simpl. split; [reflexivity | discriminate].
Qed.

Lemma get_dw_df_single_replicate_witness :
  exists out,
    get_dw_df dw_workbook "dw.xlsx" = inr out /\
    (exists r, In r out /\ s_date (row r) = 9000000) /\
    (forall r, In r out -> s_date (row r) = 9000000 ->
               biomass.std (row r) = NaN /\ biomass.std (row r) <> Num 0).
Proof.
  apply (get_dw_df_single_replicate dw_workbook "dw.xlsx" dw_rows 9000000 2%R).
  - reflexivity.
  - reflexivity.
Defined.

End DryWeightProperties.


(* ================================================================== *)
(** * More on get_growth_rates                                         *)
(* ================================================================== *)

Section GetGrowthRatesEdges.
Import models notions.
Local Open Scope R_scope.

Lemma keys_dict_set {V : Type} (k : string) (v : V) (d : dict V) (k' : string) :
  In k' (keys (dict_set k v d)) <-> k' = k \/ In k' (keys d).
Proof.
  induction d as [| [k0 v0] d IH]; simpl.
  - split; [intros [E | []]; left; symmetry; exact E | intros [E | []]; left; symmetry; exact E].
  - destruct (String.eqb k0 k) eqn:E; simpl.
    + apply String.eqb_eq in E. subst k0. split.
      * intros [H | H]; [left; symmetry; exact H | right; right; exact H].
      * intros [H | [H | H]]; [left; symmetry; exact H | left; exact H | right; exact H].
    + rewrite IH. split.
      * intros [H | [H | H]]; [right; left; exact H | left; exact H | right; right; exact H].
      * intros [H | [H | H]]; [right; left; exact H | left; exact H | right; right; exact H].
Qed.

Lemma NoDup_keys_dict_set {V : Type} (k : string) (v : V) (d : dict V) :
  NoDup (keys d) -> NoDup (keys (dict_set k v d)).
Proof.
  induction d as [| [k0 v0] d IH]; simpl; intros Hnd.
  - constructor; [intros [] | constructor].
  - inversion Hnd as [| ? ? Hnotin Hnd']; subst.
    destruct (String.eqb k0 k) eqn:E; simpl.
    + apply String.eqb_eq in E. subst k0. constructor; assumption.
    + apply String.eqb_neq in E. constructor; [| apply IH; exact Hnd'].
      intros Hin. apply keys_dict_set in Hin as [Hin | Hin]; [congruence | contradiction].
Qed.

Lemma turns_keys {V : Type} (step : string -> result V) (ks : list string)
    (acc d : dict V) :
  for_each ks (fun d' k => bind (step k) (fun v => ret (dict_set k v d'))) acc = inr d ->
  (NoDup (keys acc) -> NoDup (keys d)) /\
  (forall k, In k (keys d) <-> In k (keys acc) \/ In k ks).
Proof.
  revert acc. induction ks as [| k0 ks IH]; intros acc H; simpl in H.
  - injection H as <-. split; [auto |]. intros k. simpl. tauto.
  - apply bind_inr in H as [acc' [Hturn H]].
    apply bind_inr in Hturn as [v0 [_ Hacc']]. injection Hacc' as <-.
    destruct (IH _ H) as [Hnd Hkeys]. split.
    + intros Hacc. apply Hnd. apply NoDup_keys_dict_set. exact Hacc.
    + intros k. rewrite Hkeys, keys_dict_set. simpl.
      split; [intros [[E | Hk] | Hk] | intros [Hk | [E | Hk]]]; auto.
Qed.

(** X5: fewer than three entries in the initial guess x0 or in the lower
    bounds xmin make the first channel raise IndexError: the call returns
    no map and writes nothing. *)
Theorem get_growth_rates_short_guess_or_bounds (fit : optimiser)
    (fs : file_system)
    (biomass_df : dict (list R)) (t y : list R) (wv : string) (rest : list string)
    (x0 xmin : list R) (out_dir : option string) (w : list event) :
  column biomass_df "time" = inr t ->
  column biomass_df wv = inr y ->
  (List.length x0 < 3 \/ List.length xmin < 3)%nat ->
  get_growth_rates fit fs biomass_df (Some (wv :: rest)) (Some x0) (Some xmin) out_dir w
  = (inl IndexError, w).
Proof.
  intros Ht Hy Hshort.
  rewrite get_growth_rates_unfold, Ht. simpl.
  assert (Hch : fit_channel fit biomass_df t x0 xmin wv = inl IndexError).
  { unfold fit_channel. rewrite Hy. simpl.
    destruct x0 as [| a [| b [| c more]]]; try reflexivity.
    destruct Hshort as [H | H]; [simpl in H; lia |].
    simpl. apply fit_gompertz_short_xmin. exact H. }
  rewrite Hch. reflexivity.
Qed.

Lemma get_growth_rates_short_guess_or_bounds_witness :
  get_growth_rates no_step_fit writable two_points (Some ["800"%string])
    (Some [1 / 10; 1 / 10; 20]) (Some [0; 0]) (Some "out"%string) []
  = (inl IndexError, []).
Proof.
  apply (get_growth_rates_short_guess_or_bounds no_step_fit writable two_points
           [0; 1] [1 / 100; 2 / 100] "800" []).
  - reflexivity.
  - reflexivity.
  - right. simpl. lia.
Defined.

(** X6: a frame without a "time" column makes the call raise
    ColumnNotFoundError for "time" before any channel is looked at:
    no fit, no map, nothing written. *)
Theorem get_growth_rates_needs_time (fit : optimiser) (fs : file_system)
    (biomass_df : dict (list R))
    (wavelengths : option (list string)) (x0 xmin : option (list R))
    (out_dir : option string) (w : list event) :
  dict_get "time" biomass_df = None ->
  get_growth_rates fit fs biomass_df wavelengths x0 xmin out_dir w
  = (inl (ColumnNotFoundError "time"), w).
Proof.
  intros H. rewrite get_growth_rates_unfold. unfold column. rewrite H. reflexivity.
Qed.

Lemma get_growth_rates_needs_time_witness :
  get_growth_rates no_step_fit writable [("800"%string, [1 / 100; 2 / 100])]
    None None None (Some "out"%string) []
  = (inl (ColumnNotFoundError "time"), []).
Proof.
  apply (get_growth_rates_needs_time no_step_fit writable
           [("800"%string, [1 / 100; 2 / 100])]).
  reflexivity.
Defined.

(** X7: the map the call returns has exactly the requested channels as
    keys, each once, however often a channel is listed. *)
Theorem get_growth_rates_keys (fit : optimiser) (fs : file_system)
    (biomass_df : dict (list R))
    (wavelengths : option (list string)) (x0 xmin : option (list R))
    (out_dir : option string) (w : list event) (fit_results : dict ModelResult) :
  fst (get_growth_rates fit fs biomass_df wavelengths x0 xmin out_dir w) = inr fit_results ->
  NoDup (keys fit_results) /\
  forall wv, In wv (keys fit_results) <->
             In wv (default wavelengths default_wavelengths).
Proof.
  intros H. apply get_growth_rates_inr in H as [t [_ [Hloop _]]].
  destruct (turns_keys _ _ _ _ Hloop) as [Hnd Hkeys]. split.
  - apply Hnd. constructor.
  - intros wv. rewrite Hkeys. simpl. tauto.
Qed.

Lemma two_points_twice :
  fst (get_growth_rates no_step_fit writable two_points (Some ["800"; "800"]%string)
         None None None [])
  = inr [("800"%string, two_points_fit)].
Proof.
  rewrite get_growth_rates_unfold.
  change (column two_points "time") with (@inr exn (list R) [0; 1]).
  cbv beta iota. cbn [default for_each].
  rewrite two_points_fit_channel. reflexivity.
Qed.

Lemma get_growth_rates_keys_witness :
  NoDup (keys [("800"%string, two_points_fit)]) /\
  forall wv, In wv (keys [("800"%string, two_points_fit)]) <->
             In wv (default (Some ["800"; "800"]%string) default_wavelengths).
Proof.
  apply (get_growth_rates_keys no_step_fit writable two_points
           (Some ["800"; "800"]%string) None None None []).
  exact two_points_twice.
Defined.

(** X8: an output directory can only add the exceptions of its writes:
    when the call with an output directory returns a map, the call
    without one returns that same map, and when the call without one
    raises, the call with one raises the same exception and writes
    nothing. *)
Theorem get_growth_rates_out_dir_keeps_value (fit : optimiser) (fs : file_system)
    (biomass_df : dict (list R)) (wavelengths : option (list string))
    (x0 xmin : option (list R)) (out_dir : option string) (w : list event) :
  (forall fit_results,
      fst (get_growth_rates fit fs biomass_df wavelengths x0 xmin out_dir w)
      = inr fit_results ->
      get_growth_rates fit fs biomass_df wavelengths x0 xmin None w
      = (inr fit_results, w)) /\
  (forall e,
      fst (get_growth_rates fit fs biomass_df wavelengths x0 xmin None w) = inl e ->
      get_growth_rates fit fs biomass_df wavelengths x0 xmin out_dir w = (inl e, w)).
Proof.
  rewrite !get_growth_rates_unfold.
  destruct (column biomass_df "time") as [e | t].
  - split; [discriminate |]. simpl. intros e' H. injection H as <-. reflexivity.
  - match goal with
    | |- context [for_each ?ws ?f ?s] => destruct (for_each ws f s) as [e | res]
    end.
    + split; [discriminate |]. simpl. intros e' H. injection H as <-. reflexivity.
    + split.
      * intros m H. destruct (given out_dir).
        -- destruct (attempt fs (written (default out_dir EmptyString) t res) w)
             as [[e | []] w']; cbn [fst] in H; [discriminate |].
           injection H as <-. reflexivity.
        -- cbn [fst] in H. injection H as <-. reflexivity.
      * intros e H. cbn [given fst] in H. discriminate.
Qed.

End GetGrowthRatesEdges.

Section GetGrowthRatesWrites.
Import models notions.
Local Open Scope R_scope.

Lemma dict_get_In {V : Type} (k : string) (v : V) (d : dict V) :
  dict_get k d = Some v -> In (k, v) d.
Proof.
  induction d as [| [k0 v0] d IH]; simpl; intros H.
  - discriminate.
  - destruct (String.eqb k0 k) eqn:E.
    + apply String.eqb_eq in E. injection H as <-. subst k0. left. reflexivity.
    + right. apply IH. exact H.
Qed.

Lemma length_flat_map_pairs {A B : Type} (f : A -> B * B) (l : list A) :
  List.length (flat_map (fun a => [fst (f a); snd (f a)]) l) = (2 * List.length l)%nat.
Proof. induction l as [| a l IH]; simpl; [reflexivity | rewrite IH; lia]. Qed.

Lemma length_written (out_dir : string) (t : list R) (fit_results : dict ModelResult) :
  List.length (written out_dir t fit_results) = (2 + 2 * List.length fit_results)%nat.
Proof.
  unfold written. simpl. rewrite length_app. simpl.
  rewrite (length_flat_map_pairs
             (fun kv =>
                (WriteText (out_dir ++ "/lmfit_" ++ fst kv ++ "_report")%string
                   (fit_report (snd kv)),
                 WriteSheet (out_dir ++ "/best_fit.xlsx")%string (fst kv)
                   {| bf_time := t;
                      bf_best_fit := best_fit (snd kv);
                      bf_uncertainty := eval_uncertainty (snd kv) (9545 / 10000) t |}))).
  lia.
Qed.

Lemma given_nonempty (dir : string) : dir <> EmptyString -> given (Some dir) = true.
Proof. destruct dir; [contradiction | reflexivity]. Qed.

(** X9: given an output directory, a call that returns has written, for
    every requested channel, the report of that channel's fit to
    <dir>/lmfit_<channel>_report and its best fit and uncertainty (at
    sigma 0.9545, over the time column) to the sheet <channel> of
    <dir>/best_fit.xlsx; with the opening and the closing of the
    workbook that is two writes per entry of the map plus two. *)
Theorem get_growth_rates_writes_each_channel (fit : optimiser) (fs : file_system)
    (biomass_df : dict (list R)) (wavelengths : option (list string))
    (x0 xmin : option (list R)) (dir : string) (w : list event)
    (t : list R) (fit_results : dict ModelResult) :
  column biomass_df "time" = inr t ->
  dir <> EmptyString ->
  fst (get_growth_rates fit fs biomass_df wavelengths x0 xmin (Some dir) w)
  = inr fit_results ->
  List.length (snd (get_growth_rates fit fs biomass_df wavelengths x0 xmin (Some dir) w))
  = (List.length w + 2 + 2 * List.length fit_results)%nat /\
  forall wv, In wv (default wavelengths default_wavelengths) ->
    exists r,
      dict_get wv fit_results = Some r /\
      In (WriteText (dir ++ "/lmfit_" ++ wv ++ "_report")%string (fit_report r))
         (snd (get_growth_rates fit fs biomass_df wavelengths x0 xmin (Some dir) w)) /\
      In (WriteSheet (dir ++ "/best_fit.xlsx")%string wv
            {| bf_time := t;
               bf_best_fit := best_fit r;
               bf_uncertainty := eval_uncertainty r (9545 / 10000) t |})
         (snd (get_growth_rates fit fs biomass_df wavelengths x0 xmin (Some dir) w)).
Proof.
  intros Ht Hdir Hres.
  pose proof Hres as Hloop.
  apply get_growth_rates_inr in Hloop as [t' [Ht' [Hloop Hsnd]]].
  assert (t' = t) as -> by congruence.
  specialize (Hsnd (given_nonempty _ Hdir)). simpl (default _ _) in Hsnd.
  rewrite Hsnd. split.
  - rewrite length_app, length_written. lia.
  - intros wv Hwv.
    destruct (turns_keys _ _ _ _ Hloop) as [_ Hkeys].
    assert (Hk : In wv (keys fit_results)) by (apply Hkeys; right; exact Hwv).
    apply dict_get_keys in Hk as [r Hr]. exists r. split; [exact Hr |].
    apply dict_get_In in Hr.
    split; apply in_or_app; right; unfold written; right; apply in_or_app; left;
      apply in_flat_map; exists (wv, r); (split; [exact Hr |]); simpl.
    + left. reflexivity.
    + right. left. reflexivity.
Qed.

Lemma two_points_out :
  fst (get_growth_rates no_step_fit writable two_points None None None
         (Some "out"%string) [])
  = inr [("800"%string, two_points_fit)].
Proof.
  rewrite get_growth_rates_unfold.
  change (column two_points "time") with (@inr exn (list R) [0; 1]).
  cbv beta iota. cbn [default for_each default_wavelengths].
  rewrite two_points_fit_channel. cbn [bind ret dict_set given].
  rewrite attempt_writable. reflexivity.
Qed.

Lemma get_growth_rates_writes_each_channel_witness :
  List.length (snd (get_growth_rates no_step_fit writable two_points None None None
                      (Some "out"%string) []))
  = (List.length (@nil event) + 2 + 2 * List.length [("800"%string, two_points_fit)])%nat /\
  forall wv, In wv (default None default_wavelengths) ->
    exists r,
      dict_get wv [("800"%string, two_points_fit)] = Some r /\
      In (WriteText ("out" ++ "/lmfit_" ++ wv ++ "_report")%string (fit_report r))
         (snd (get_growth_rates no_step_fit writable two_points None None None
                 (Some "out"%string) [])) /\
      In (WriteSheet ("out" ++ "/best_fit.xlsx")%string wv
            {| bf_time := [0; 1];
               bf_best_fit := best_fit r;
               bf_uncertainty := eval_uncertainty r (9545 / 10000) [0; 1] |})
         (snd (get_growth_rates no_step_fit writable two_points None None None
                 (Some "out"%string) [])).
Proof.
  apply (get_growth_rates_writes_each_channel no_step_fit writable two_points
           None None None "out" [] [0; 1] [("800"%string, two_points_fit)]).
  - reflexivity.
  - discriminate.
  - exact two_points_out.
Defined.

(** X10: an empty list of channels is not replaced by the default
    channel: nothing is fitted (the guess and the bounds are not even
    indexed) and the map is empty; with an output directory the call
    still attempts to open and to close the workbook, without a sheet,
    and returns the empty map unless one of the two raises. *)
Theorem get_growth_rates_no_channel (fit : optimiser) (fs : file_system)
    (biomass_df : dict (list R))
    (x0 xmin : option (list R)) (out_dir : option string) (w : list event)
    (t : list R) :
  column biomass_df "time" = inr t ->
  get_growth_rates fit fs biomass_df (Some []) x0 xmin out_dir w
  = if given out_dir
    then match attempt fs
                 [OpenWorkbook (default out_dir EmptyString ++ "/best_fit.xlsx")%string;
                  CloseWorkbook (default out_dir EmptyString ++ "/best_fit.xlsx")%string]
                 w with
         | (inr _, w') => (inr [], w')
         | (inl e, w') => (inl e, w')
         end
    else (inr [], w).
Proof.
  intros Ht. rewrite get_growth_rates_unfold, Ht. reflexivity.
Qed.

Lemma get_growth_rates_no_channel_witness :
  get_growth_rates no_step_fit no_such_directory two_points (Some []) (Some []) None
    (Some "out"%string) []
  = (inl (FileCreateError "out/best_fit.xlsx"), [OpenWorkbook "out/best_fit.xlsx"]).
Proof.
  apply (get_growth_rates_no_channel no_step_fit no_such_directory two_points
           (Some []) None (Some "out"%string) [] [0; 1]).
  reflexivity.
Defined.

(** The same call on the two file systems of the examples: the empty map
    and an empty workbook where the directory exists, the workbook
    writer's exception where it does not. *)
Lemma no_channel_on_two_file_systems :
  get_growth_rates no_step_fit writable two_points (Some []) None None
    (Some "out"%string) []
  = (inr [], [OpenWorkbook "out/best_fit.xlsx"; CloseWorkbook "out/best_fit.xlsx"]) /\
  get_growth_rates no_step_fit no_such_directory two_points (Some []) None None
    (Some "out"%string) []
  = (inl (FileCreateError "out/best_fit.xlsx"), [OpenWorkbook "out/best_fit.xlsx"]).
Proof. split; reflexivity. Qed.

End GetGrowthRatesWrites.

(* ================================================================== *)
(** * More on load_tecan                                               *)
(* ================================================================== *)


Section TecanEdges.
Import pl biomass notions.
Local Open Scope Z_scope.

Variable open_workbook : string -> result (dict tecan_sheet).

Lemma Forall2_nil_r {A B : Type} (P : A -> B -> Prop) (xs : list A) :
  Forall2 P xs [] -> xs = [].
Proof. inversion 1. reflexivity. Qed.

(** What a file must be for [load_file] to return. *)
Lemma load_file_inr (n_wells : Z) (col_letters : string)
    (keys_options : option read_options) (f : string) (df : list tecan_row) :
  load_file open_workbook n_wells col_letters keys_options f = inr df ->
  exists sheets,
    open_workbook f = inr sheets /\ sheets <> [] /\
    forall sh, In sh (values sheets) ->
               exists seconds, read_date sh date_options = Some seconds.
Proof.
  unfold load_file. intros H.
  apply bind_inr in H as [sheets [Hopen H]].
  apply bind_inr in H as [frames [Htrav H]].
  apply traverse_inr in Htrav.
  exists sheets. split; [exact Hopen |]. split.
  - intros ->. simpl in Htrav. inversion Htrav; subst. discriminate.
  - intros sh Hsh.
    destruct (Forall2_In_l _ _ _ Htrav _ Hsh) as [rows [_ Hload]].
    unfold load_sheet in Hload. fold date_options in Hload.
    destruct (read_date sh date_options) as [seconds |]; [| discriminate].
    exists seconds. reflexivity.
Qed.

End TecanEdges.

Section TecanMore.
Import pl biomass notions.
Local Open Scope Z_scope.

(** X12: malformed input aborts the whole load: [load_tecan] returns
    only if every listed file can be read, has at least one sheet, and
    the date cell of every one of its sheets matches the date pattern. *)
Theorem load_tecan_needs_every_file
    (open_workbook : string -> result (dict tecan_sheet))
    (files : list string) (n_wells : option Z) (col_letters : option string)
    (keys_options : option read_options) (od_df : list (timed tecan_row R)) :
  load_tecan open_workbook files n_wells col_letters keys_options = inr od_df ->
  forall f, In f files ->
    exists sheets,
      open_workbook f = inr sheets /\ sheets <> [] /\
      forall sh, In sh (values sheets) ->
                 exists seconds, read_date sh date_options = Some seconds.
Proof.
  intros H f Hf.
  apply load_tecan_inr in H as [rows [d0 [Hpool _]]].
  unfold pooled in Hpool. apply bind_inr in Hpool as [files_dict [Hloop _]].
  destruct (turns_inr _ _ _ _ Hloop _ Hf) as [df Hdf].
  apply (load_file_inr _ _ _ _ _ _ Hdf).
Qed.

Lemma load_tecan_needs_every_file_witness :
  exists sheets,
    one_workbook "od.xlsx" = inr sheets /\ sheets <> [] /\
    forall sh, In sh (values sheets) ->
               exists seconds, read_date sh date_options = Some seconds.
Proof.
  apply (load_tecan_needs_every_file one_workbook ["od.xlsx"%string] None None some_keys
           [ elapsed_days 0 (tecan_row_of well_A1 ["blank"%string] 0);
             elapsed_days 0 (tecan_row_of well_A1 ["blank"%string] 86400) ]).
  - exact one_workbook_keyed.
  - left. reflexivity.
Defined.

Lemma elapsed_days_le_iff (s0 s s' : Z) (x x' : tecan_row) :
  date x = s * 1000000 -> date x' = s' * 1000000 ->
  ((time (elapsed_days (s0 * 1000000) x) <= time (elapsed_days (s0 * 1000000) x'))%R
   <-> date x <= date x').
Proof.
  intros Hx Hx'.
  rewrite (elapsed_days_seconds s0 (s - s0) x) by (rewrite Hx; ring).
  rewrite (elapsed_days_seconds s0 (s' - s0) x') by (rewrite Hx'; ring).
  rewrite Hx, Hx'. split.
  - intros H.
    assert (H' : (IZR (s - s0) <= IZR (s' - s0))%R).
    { unfold Rdiv in H. apply Rmult_le_reg_r in H; [exact H |].
      apply Rinv_0_lt_compat. lra. }
    apply le_IZR in H'. lia.
  - intros H. unfold Rdiv. apply Rmult_le_compat_r.
    + left. apply Rinv_0_lt_compat. lra.
    + apply IZR_le. lia.
Qed.

(** X13: in the series [load_tecan] returns no elapsed time is negative,
    and the elapsed times order the rows exactly as the timestamps do
    (rows of one batch share their elapsed time, a later batch has a
    strictly larger one). *)
Theorem load_tecan_time_orders_as_date
    (open_workbook : string -> result (dict tecan_sheet))
    (files : list string) (n_wells : option Z) (col_letters : option string)
    (keys_options : option read_options) (od_df : list (timed tecan_row R)) :
  load_tecan open_workbook files n_wells col_letters keys_options = inr od_df ->
  forall r, In r od_df ->
    (0 <= time r)%R /\
    forall r', In r' od_df ->
      ((time r <= time r')%R <-> date (row r) <= date (row r')).
Proof.
  intros H r Hr.
  apply load_tecan_inr in H as [rows [d0 [Hpool [-> Hd0]]]].
  destruct (pl.sort date rows) as [| first rest] eqn:Hsort; [contradiction |].
  rewrite (Hd0 first rest eq_refl) in *. clear Hd0.
  destruct (sort_head_least date _ _ _ Hsort) as [Hfirst Hleast].
  destruct (pooled_whole_seconds _ _ _ _ _ _ Hpool _ Hfirst) as [s0 Hs0].
  assert (Hrows : forall y, In y (map (elapsed_days (date first)) (first :: rest)) ->
            exists x s, In x rows /\ date x = s * 1000000 /\
                        y = elapsed_days (s0 * 1000000) x).
  { intros y Hy. apply in_map_iff in Hy as [x [<- Hx]].
    rewrite <- Hsort in Hx. apply (Permutation_in _ (sort_perm date rows)) in Hx.
    destruct (pooled_whole_seconds _ _ _ _ _ _ Hpool _ Hx) as [s Hs].
    exists x, s. rewrite Hs0. repeat split; assumption. }
  destruct (Hrows r Hr) as [x [s [Hx [Hs ->]]]]. split.
  - rewrite (elapsed_days_seconds s0 (s - s0) x) by (rewrite Hs; ring).
    specialize (Hleast x Hx). rewrite Hs0, Hs in Hleast.
    unfold Rdiv. apply Rmult_le_pos.
    + apply IZR_le. lia.
    + left. apply Rinv_0_lt_compat. lra.
  - intros r' Hr'. destruct (Hrows r' Hr') as [x' [s' [_ [Hs' ->]]]].
    simpl (row _). apply (elapsed_days_le_iff s0 s s'); assumption.
Qed.

Lemma one_workbook_loaded :
  load_tecan one_workbook ["od.xlsx"%string] None None None
  = inr [ elapsed_days 0 (tecan_row_of well_A1 [] 0);
          elapsed_days 0 (tecan_row_of well_B1 [] 0);
          elapsed_days 0 (tecan_row_of well_A1 [] 86400);
          elapsed_days 0 (tecan_row_of well_B1 [] 86400) ].
Proof. reflexivity. Qed.

Lemma load_tecan_time_orders_as_date_witness :
  (0 <= time (elapsed_days 0 (tecan_row_of well_B1 [] 86400)))%R /\
  forall r',
    In r' [ elapsed_days 0 (tecan_row_of well_A1 [] 0);
            elapsed_days 0 (tecan_row_of well_B1 [] 0);
            elapsed_days 0 (tecan_row_of well_A1 [] 86400);
            elapsed_days 0 (tecan_row_of well_B1 [] 86400) ] ->
    ((time (elapsed_days 0 (tecan_row_of well_B1 [] 86400)) <= time r')%R
     <-> date (row (elapsed_days 0 (tecan_row_of well_B1 [] 86400))) <= date (row r')).
Proof.
  apply (load_tecan_time_orders_as_date one_workbook ["od.xlsx"%string] None None None
           _ one_workbook_loaded).
  right. right. right. left. reflexivity.
Defined.

(** X14: without the key join (no options, or an empty dict of them) the
    series holds exactly the readings of every sheet of every listed
    file, each with the date of its sheet and no key column: no reading
    is dropped. *)
Theorem load_tecan_without_join_keeps_readings
    (open_workbook : string -> result (dict tecan_sheet))
    (files : list string) (n_wells : option Z) (col_letters : option string)
    (keys_options : option read_options) (od_df : list (timed tecan_row R)) :
  requested keys_options = false ->
  load_tecan open_workbook files n_wells col_letters keys_options = inr od_df ->
  forall x : tecan_row,
    In x (map row od_df) <->
    exists f sheets sh seconds r,
      In f files /\ open_workbook f = inr sheets /\ In sh (values sheets) /\
      read_date sh date_options = Some seconds /\
      In r (read_absorbance sh (absorbance_options n_wells col_letters)) /\
      x = tecan_row_of r [] seconds.
Proof.
  intros Hreq Hload x.
  apply load_tecan_inr in Hload as [rows [d0 [Hpool [-> _]]]].
  rewrite map_row_elapsed_days.
  assert (Hsorted : In x (pl.sort date rows) <-> In x rows).
  { split; apply Permutation_in;
      [apply sort_perm | apply Permutation_sym, sort_perm]. }
  rewrite Hsorted, (pooled_rows _ _ _ _ _ _ Hpool x).
  unfold keyed. rewrite Hreq. split.
  - intros [f [sheets [sh [seconds [rk [Hf [Hopen [Hsh [Hdate [Hrk ->]]]]]]]]]].
    apply in_map_iff in Hrk as [r [<- Hr]].
    exists f, sheets, sh, seconds, r. repeat split; assumption.
  - intros [f [sheets [sh [seconds [r [Hf [Hopen [Hsh [Hdate [Hr ->]]]]]]]]]].
    exists f, sheets, sh, seconds, (r, []). repeat split; try assumption.
    apply in_map_iff. exists r. split; [reflexivity | exact Hr].
Qed.

Lemma load_tecan_without_join_keeps_readings_witness :
  In (tecan_row_of well_B1 [] 86400)
     (map row [ elapsed_days 0 (tecan_row_of well_A1 [] 0);
                elapsed_days 0 (tecan_row_of well_B1 [] 0);
                elapsed_days 0 (tecan_row_of well_A1 [] 86400);
                elapsed_days 0 (tecan_row_of well_B1 [] 86400) ]) <->
  exists f sheets sh seconds r,
    In f ["od.xlsx"%string] /\ one_workbook f = inr sheets /\ In sh (values sheets) /\
    read_date sh date_options = Some seconds /\
    In r (read_absorbance sh (absorbance_options None None)) /\
    tecan_row_of well_B1 [] 86400 = tecan_row_of r [] seconds.
Proof.
  apply (load_tecan_without_join_keeps_readings one_workbook ["od.xlsx"%string]
           None None (Some [])).
  - reflexivity.
  - exact one_workbook_loaded.
Defined.

(** X15: when the pooled batches hold no row at all (sheets without
    readings, or a key join that matches no well) the selection
    [od_df[0, -1]] is empty and [load_tecan] returns the series without
    rows; it does not raise. *)
Theorem load_tecan_no_row_empty_series
    (open_workbook : string -> result (dict tecan_sheet))
    (files : list string) (n_wells : option Z) (col_letters : option string)
    (keys_options : option read_options) :
  pooled open_workbook files n_wells col_letters keys_options = inr [] ->
  load_tecan open_workbook files n_wells col_letters keys_options = inr [].
Proof. intros Hpool. rewrite load_tecan_pooled, Hpool. reflexivity. Qed.

Lemma load_tecan_no_row_empty_series_witness :
  load_tecan blank_workbook ["blank.xlsx"%string] None None None = inr [].
Proof.
  apply (load_tecan_no_row_empty_series blank_workbook ["blank.xlsx"%string]
           None None None).
  reflexivity.
Defined.

End TecanMore.

Section TecanFileList.
Import pl biomass notions.
Local Open Scope Z_scope.

Lemma for_each_app {A S : Type} (xs ys : list A) (body : S -> A -> result S) (s : S) :
  for_each (xs ++ ys) body s = bind (for_each xs body s) (for_each ys body).
Proof.
  revert s. induction xs as [| x xs IH]; intros s; simpl.
  - reflexivity.
  - destruct (body s x) as [e | s']; simpl; [reflexivity | apply IH].
Qed.

Lemma dict_set_present {V : Type} (k : string) (v : V) (d : dict V) :
  dict_get k d = Some v -> dict_set k v d = d.
Proof.
  induction d as [| [k0 v0] d IH]; simpl; intros H.
  - discriminate.
  - destruct (String.eqb k0 k) eqn:E.
    + apply String.eqb_eq in E. injection H as <-. subst k0. reflexivity.
    + rewrite (IH H). reflexivity.
Qed.

(** X16: the frames are kept by file path, so listing a file again does
    not pool its rows again: the series is the same. *)
Theorem load_tecan_file_listed_again
    (open_workbook : string -> result (dict tecan_sheet))
    (files : list string) (f : string) (n_wells : option Z)
    (col_letters : option string) (keys_options : option read_options) :
  In f files ->
  load_tecan open_workbook (files ++ [f]) n_wells col_letters keys_options
  = load_tecan open_workbook files n_wells col_letters keys_options.
Proof.
  intros Hf. rewrite !load_tecan_pooled. f_equal.
  unfold pooled. rewrite for_each_app.
  match goal with
  | |- context [for_each files ?body []] =>
      destruct (for_each files body []) as [e | d] eqn:E
  end; [reflexivity |].
  pose proof (turns_inr _ _ _ _ E) as Hall.
  destruct (turns_all _ _ [] Hall) as [d' [Hd' [Hget _]]].
  cbv zeta in Hd'. rewrite E in Hd'. injection Hd' as <-.
  destruct (Hall f Hf) as [df Hdf].
  simpl. rewrite Hdf. simpl.
  rewrite (dict_set_present _ _ _ (Hget f df Hf Hdf)). reflexivity.
Qed.

Lemma load_tecan_file_listed_again_witness :
  load_tecan one_workbook (["od.xlsx"%string] ++ ["od.xlsx"%string]) None None None
  = load_tecan one_workbook ["od.xlsx"%string] None None None.
Proof.
  apply (load_tecan_file_listed_again one_workbook ["od.xlsx"%string] "od.xlsx").
  left. reflexivity.
Defined.

End TecanFileList.

(* ================================================================== *)
(** * More on get_dw_df                                                *)
(* ================================================================== *)

Section DryWeightMore.
Import pl biomass notions.
Local Open Scope Z_scope.

(** X17: on a table that loads and holds no sample of type VSS the
    selection [dw_df[0, 0]] is empty and [get_dw_df] returns the frame
    without rows; it does not raise. *)
Theorem get_dw_df_no_vss_empty_frame
    (read_excel : string -> option (list string) -> result (dict (list dw_sample)))
    (file : string) (raw : list dw_sample) :
  load_excel read_excel file (Some dw_columns) = inr raw ->
  vss raw = [] ->
  get_dw_df read_excel file = inr [].
Proof.
  intros Hload Hnil. rewrite (get_dw_df_unfold _ _ _ Hload), Hnil. reflexivity.
Qed.

Lemma get_dw_df_no_vss_empty_frame_witness :
  get_dw_df tss_workbook "tss.xlsx" = inr [].
Proof.
  apply (get_dw_df_no_vss_empty_frame tss_workbook "tss.xlsx"
           [ {| type := "TSS"; Biomass := 7%R; dw_date := 5000000 |} ]).
  - reflexivity.
  - reflexivity.
Defined.

(** X18: in the frame [get_dw_df] returns the elapsed time of the first
    row is 0 and the elapsed times increase strictly from row to row:
    no two rows share a time. *)
Theorem get_dw_df_time_strictly_increasing
    (read_excel : string -> option (list string) -> result (dict (list dw_sample)))
    (file : string) (raw : list dw_sample) :
  load_excel read_excel file (Some dw_columns) = inr raw ->
  vss raw <> [] ->
  exists first rest,
    get_dw_df read_excel file = inr (first :: rest) /\
    time first = 0 /\
    StronglySorted Z.lt (map time (first :: rest)).
Proof.
  intros Hload Hne.
  destruct (get_dw_df_returns _ _ _ Hload Hne) as [x [xs [Hsort Hget]]].
  exists (with_time x (s_date x - s_date x)),
         (map (fun r => with_time r (s_date r - s_date x)) xs).
  split; [exact Hget |]. split; [simpl; lia |].
  change (StronglySorted Z.lt
            (map time (map (fun r => with_time r (s_date r - s_date x)) (x :: xs)))).
  rewrite map_map. simpl (time _).
  rewrite <- (map_map s_date (fun d => d - s_date x)).
  apply StronglySorted_map_mono with (P := Z.lt).
  - intros a b Hab. lia.
  - rewrite <- Hsort. apply sorted_summaries_ascending.
Qed.

Lemma get_dw_df_time_strictly_increasing_witness :
  exists first rest,
    get_dw_df dw_workbook "dw.xlsx" = inr (first :: rest) /\
    time first = 0 /\
    StronglySorted Z.lt (map time (first :: rest)).
Proof.
  apply (get_dw_df_time_strictly_increasing dw_workbook "dw.xlsx" dw_rows).
  - reflexivity.
  - discriminate.
Defined.

(** X19: samples of any type other than VSS, and the split of the
    samples over sheets and files, have no influence: two tables with
    the same VSS samples in the same order give the same result. *)
Theorem get_dw_df_depends_on_vss_only
    (read_excel read_excel' :
       string -> option (list string) -> result (dict (list dw_sample)))
    (file file' : string) (raw raw' : list dw_sample) :
  load_excel read_excel file (Some dw_columns) = inr raw ->
  load_excel read_excel' file' (Some dw_columns) = inr raw' ->
  vss raw = vss raw' ->
  get_dw_df read_excel file = get_dw_df read_excel' file'.
Proof.
  intros Hload Hload' Hvss.
  rewrite (get_dw_df_unfold _ _ _ Hload), (get_dw_df_unfold _ _ _ Hload').
  unfold summary, replicates. rewrite Hvss. reflexivity.
Qed.

Lemma get_dw_df_depends_on_vss_only_witness :
  get_dw_df dw_workbook "dw.xlsx" = get_dw_df vss_workbook "vss.xlsx".
Proof.
  apply (get_dw_df_depends_on_vss_only dw_workbook vss_workbook "dw.xlsx" "vss.xlsx"
           dw_rows
           [ {| type := "VSS"; Biomass := 1%R; dw_date := 5000000 |};
             {| type := "VSS"; Biomass := 2%R; dw_date := 9000000 |};
             {| type := "VSS"; Biomass := 3%R; dw_date := 5000000 |} ]).
  - reflexivity.
  - reflexivity.
  - reflexivity.
Defined.

End DryWeightMore.

